(** * ElectNanoCOA: the certificate generator of [streamlit_app.py]

    A shallow embedding of the value formatters, the column fitter, the
    page geometry, the asset loader, the spreadsheet import and the
    two-pass page-numbering canvas, with the properties the specification
    states about them.

    Conventions.
    - A Python [str] is a [string] whose characters are the code points
      below 256, so [str.strip] and [str.lower] are the Latin-1 fragment of
      the Python ones.
    - A Python [dict] with string keys is a [gmap string _];
      [d.get(k, "")] is [get].
    - The numbers of the page geometry are Python floats; they are embedded
      as exact rationals [Q], compared with [==].  Float parsing and
      formatting in [_sci_if_needed] are embedded exactly (binary64 with
      round-half-even), see [py_float] and [format_1E].
    - A [try]/[except Exception] block is [catch] on the [result] type. *)

From Stdlib Require Import ZArith QArith Qminmax Lqa Ascii String DecimalString Bool List Lia.
From stdpp Require Import gmap strings list.
Import ListNotations.

Local Open Scope string_scope.
Local Open Scope list_scope.

(** ** Python strings *)

Section PyStr.

(** [c.isspace()] for a code point below 256. *)
Definition py_isspace (c : ascii) : bool :=
  let n := nat_of_ascii c in
  ((9 <=? n)%nat && (n <=? 13)%nat) || ((28 <=? n)%nat && (n <=? 32)%nat)
  || (n =? 133)%nat || (n =? 160)%nat.

Fixpoint lstrip (s : string) : string :=
  match s with
  | EmptyString => EmptyString
  | String c s' => if py_isspace c then lstrip s' else s
  end.

Fixpoint rstrip (s : string) : string :=
  match s with
  | EmptyString => EmptyString
  | String c s' =>
      match rstrip s' with
      | EmptyString => if py_isspace c then EmptyString else String c EmptyString
      | t => String c t
      end
  end.

(** [s.strip()] *)
Definition strip (s : string) : string := rstrip (lstrip s).

Definition py_lower_char (c : ascii) : ascii :=
  let n := nat_of_ascii c in
  if ((65 <=? n)%nat && (n <=? 90)%nat)
     || ((192 <=? n)%nat && (n <=? 222)%nat && negb (n =? 215)%nat)
  then ascii_of_nat (n + 32) else c.

(** [s.lower()] *)
Fixpoint lower (s : string) : string :=
  match s with
  | EmptyString => EmptyString
  | String c s' => String (py_lower_char c) (lower s')
  end.

(** [sub in s] *)
Fixpoint contains (sub s : string) : bool :=
  String.prefix sub s
  || match s with
     | EmptyString => false
     | String _ s' => contains sub s'
     end.

(** [s.endswith(suf)] *)
Fixpoint endswith (s suf : string) : bool :=
  String.eqb s suf
  || match s with
     | EmptyString => false
     | String _ s' => endswith s' suf
     end.

(** [s.replace(",", "")] *)
Fixpoint remove_commas (s : string) : string :=
  match s with
  | EmptyString => EmptyString
  | String c s' =>
      if Ascii.eqb c "," then remove_commas s' else String c (remove_commas s')
  end.

(** [str(n)] for a non-negative integer. *)
Definition dec (n : N) : string := NilZero.string_of_uint (N.to_uint n).

(** [f"{n:0{w}d}"]: decimal, zero-padded on the left to width [w]. *)
Fixpoint zeros (k : nat) : string :=
  match k with O => EmptyString | S k' => String "0" (zeros k') end.

Definition pad_dec (w : nat) (n : N) : string :=
  let d := dec n in zeros (w - String.length d) +:+ d.

End PyStr.

(** ** Python floats: [float(str)], [abs(f) >= 1000] and [f"{f:.1E}"]

    The builtins are embedded exactly: [py_float] accepts the grammar of
    the language reference for [float()] and rounds the decimal value to the
    nearest binary64 number, ties to even; [format_1E] prints the two
    significant digits of the exact binary value, ties to even. *)

Section PyFloat.

Local Open Scope Z_scope.

(** [PyFin neg m e] is [(-1)^neg * m * 2^e], with [0 <= m <= 2^53]. *)
Inductive pyfloat : Type :=
| PyNaN
| PyInf (neg : bool)
| PyFin (neg : bool) (m : Z) (e : Z).

Definition digit_of (c : ascii) : option Z :=
  let n := nat_of_ascii c in
  if ((48 <=? n)%nat && (n <=? 57)%nat)%bool then Some (Z.of_nat (n - 48)) else None.

(** The tail of a [digitpart] after its first digit: [(["_"] digit)*]. *)
Fixpoint digit_tail (acc : list Z) (s : string) : list Z * string :=
  match s with
  | String c s' =>
      match digit_of c with
      | Some d => digit_tail (d :: acc) s'
      | None =>
          if Ascii.eqb c "_" then
            match s' with
            | String c' s'' =>
                match digit_of c' with
                | Some d => digit_tail (d :: acc) s''
                | None => (rev acc, s)
                end
            | EmptyString => (rev acc, s)
            end
          else (rev acc, s)
      end
  | EmptyString => (rev acc, s)
  end.

(** [digitpart ::= digit (["_"] digit)*] *)
Definition digitpart (s : string) : option (list Z * string) :=
  match s with
  | String c s' =>
      match digit_of c with
      | Some d => Some (digit_tail [d] s')
      | None => None
      end
  | EmptyString => None
  end.

(** [number ::= [digitpart] "." digitpart | digitpart ["."]]: the integer
    digits, the fraction digits and the rest of the input. *)
Definition number (s : string) : option (list Z * list Z * string) :=
  match digitpart s with
  | Some (ds, String "." r) =>
      match digitpart r with
      | Some (fs, r') => Some (ds, fs, r')
      | None => Some (ds, [], r)
      end
  | Some (ds, r) => Some (ds, [], r)
  | None =>
      match s with
      | String "." r =>
          match digitpart r with
          | Some (fs, r') => Some ([], fs, r')
          | None => None
          end
      | _ => None
      end
  end.

Definition digits_value (ds : list Z) : Z :=
  fold_left (fun a d => 10 * a + d) ds 0.

(** [sign ::= "+" | "-"], optional. *)
Definition sign (s : string) : bool * string :=
  match s with
  | String "-" r => (true, r)
  | String "+" r => (false, r)
  | _ => (false, s)
  end.

(** [exponent ::= ("e" | "E") [sign] digitpart], optional, then the end of
    the input. *)
Definition exponent (s : string) : option Z :=
  match s with
  | EmptyString => Some 0
  | String c r =>
      if (Ascii.eqb c "e" || Ascii.eqb c "E")%bool then
        let '(neg, r') := sign r in
        match digitpart r' with
        | Some (ds, EmptyString) =>
            Some (if neg then - digits_value ds else digits_value ds)
        | _ => None
        end
      else None
  end.

(** Nearest binary64 to [num / den] (both positive), ties to even, as
    mantissa and exponent; [None] when it overflows to infinity. *)
Definition round_b64 (num den : Z) : option (Z * Z) :=
  let e0 := Z.log2 num - Z.log2 den in
  let ge := if 0 <=? e0 then den * 2 ^ e0 <=? num else den <=? num * 2 ^ (- e0) in
  let lg := if ge then e0 else e0 - 1 in
  let s := Z.max (lg - 52) (-1074) in
  let n' := if 0 <=? s then num else num * 2 ^ (- s) in
  let d' := if 0 <=? s then den * 2 ^ s else den in
  let q := n' / d' in
  let r := n' mod d' in
  let m := if (d' <? 2 * r) || ((d' =? 2 * r) && Z.odd q) then q + 1 else q in
  if (971 <? s) || ((s =? 971) && (m =? 2 ^ 53)) then None else Some (m, s).

Definition float_of_decimal (neg : bool) (ds fs : list Z) (ex : Z) : pyfloat :=
  let n := digits_value (ds ++ fs) in
  let e10 := ex - Z.of_nat (length fs) in
  if n =? 0 then PyFin neg 0 0
  else
    let num := if 0 <=? e10 then n * 10 ^ e10 else n in
    let den := if 0 <=? e10 then 1 else 10 ^ (- e10) in
    match round_b64 num den with
    | Some (m, s) => PyFin neg m s
    | None => PyInf neg
    end.

(** [float(s)]; [None] is [ValueError]. *)
Definition py_float (s : string) : option pyfloat :=
  let '(neg, r) := sign (strip s) in
  let w := lower r in
  if (String.eqb w "inf" || String.eqb w "infinity")%bool then Some (PyInf neg)
  else if String.eqb w "nan" then Some PyNaN
  else
    match number r with
    | Some (ds, fs, r') =>
        match exponent r' with
        | Some ex => Some (float_of_decimal neg ds fs ex)
        | None => None
        end
    | None => None
    end.

(** [abs(f) >= 1000] *)
Definition abs_ge_1000 (f : pyfloat) : bool :=
  match f with
  | PyNaN => false
  | PyInf _ => true
  | PyFin _ m e => if 0 <=? e then 1000 <=? m * 2 ^ e else 1000 * 2 ^ (- e) <=? m
  end.

(** The least [j >= 1] with [den <= num * 10^j], searched upwards. *)
Fixpoint neg_exp10 (fuel : nat) (num den j : Z) : Z :=
  match fuel with
  | O => j
  | S fuel' => if den <=? num * 10 ^ j then j else neg_exp10 fuel' num den (j + 1)
  end.

(** [floor (log10 (num / den))] for positive [num] and [den]. *)
Definition floor_log10 (num den : Z) : Z :=
  if den <=? num
  then Z.of_nat (String.length (dec (Z.to_N (num / den)))) - 1
  else - neg_exp10 (Z.to_nat (Z.log2 den) + 1) num den 1.

Definition digit_char (d : Z) : string :=
  String (ascii_of_nat (48 + Z.to_nat d)) EmptyString.

(** [f"{f:.1E}"] *)
Definition format_1E (f : pyfloat) : string :=
  match f with
  | PyNaN => "NAN"
  | PyInf neg => (if neg then "-" else "") +:+ "INF"
  | PyFin neg m e =>
      let sg := if neg then "-" else "" in
      if m =? 0 then sg +:+ "0.0E+00"
      else
        let num := if 0 <=? e then m * 2 ^ e else m in
        let den := if 0 <=? e then 1 else 2 ^ (- e) in
        let k := floor_log10 num den in
        (* two significant digits: num / den / 10^(k-1), ties to even *)
        let n' := if 0 <=? k - 1 then num else num * 10 ^ (1 - k) in
        let d' := if 0 <=? k - 1 then den * 10 ^ (k - 1) else den in
        let q := n' / d' in
        let r := n' mod d' in
        let d := if (d' <? 2 * r) || ((d' =? 2 * r) && Z.odd q) then q + 1 else q in
        let '(d, k) := if d =? 100 then (10, k + 1) else (d, k) in
        sg +:+ digit_char (d / 10) +:+ "." +:+ digit_char (d mod 10) +:+ "E"
           +:+ (if k <? 0 then "-" else "+") +:+ pad_dec 2 (Z.to_N (Z.abs k))
  end.

End PyFloat.

(** ** Value formatter: numbers *)

(** [_sci_if_needed(val)]; [None] is Python's [None]. *)
Definition _sci_if_needed (val : option string) : string :=
  match val with
  | None => ""
  | Some v =>
      let s := strip v in
      if String.eqb s "" then s
      else
        match py_float (remove_commas s) with
        | Some f => if abs_ge_1000 f then format_1E f else s
        | None => s
        end
  end.

(** ** Exceptions *)

(** A computation that returns or raises; the payload of [Raise] is the
    message of the exception. *)
Inductive result (A : Type) : Type :=
| Ok (a : A)
| Raise (msg : string).
Arguments Ok {A} a.
Arguments Raise {A} msg.

Definition bind {A B : Type} (r : result A) (k : A -> result B) : result B :=
  match r with
  | Ok a => k a
  | Raise msg => Raise msg
  end.

(** [try: r  except Exception as exc: handler(exc)] *)
Definition catch {A : Type} (r : result A) (handler : string -> result A) : result A :=
  match r with
  | Ok a => Ok a
  | Raise msg => handler msg
  end.

Notation "'let!' x ':=' r 'in' k" := (bind r (fun x => k))
  (at level 10, x name, r at level 100, k at level 200).

(** A [for] loop that appends [f x] to a list for each [x], in order; the
    first exception ends it. *)
Fixpoint for_each {A B : Type} (f : A -> result B) (l : list A) : result (list B) :=
  match l with
  | [] => Ok []
  | x :: l' =>
      let! y := f x in
      let! ys := for_each f l' in
      Ok (y :: ys)
  end.

(** ** Value formatter: dates *)

(** A [pandas.Timestamp] without time zone, to the second. *)
Record timestamp : Type := Timestamp {
  year : N; month : N; day : N; hour : N; minute : N; second : N
}.

(** The decimal digit [d] as a character. *)
Definition digit_N (d : N) : ascii := ascii_of_N (48 + d mod 10).

(** [%m], [%d], [%H], [%M], [%S]: two digits, zero-padded. *)
Definition two_digit (n : N) : string :=
  String (digit_N (n / 10)) (String (digit_N n) EmptyString).

(** [%Y]: the four digits of the year (a [Timestamp] of nanosecond
    resolution has a year from 1677 to 2262). *)
Definition four_digit (n : N) : string :=
  String (digit_N (n / 1000)) (String (digit_N (n / 100)) (two_digit n)).

(** [ts.strftime("%Y-%m-%d")] *)
Definition strftime_ymd (ts : timestamp) : string :=
  four_digit (year ts) +:+ "-" +:+ two_digit (month ts) +:+ "-" +:+ two_digit (day ts).

(** [str(ts)] *)
Definition str_timestamp (ts : timestamp) : string :=
  strftime_ymd ts +:+ " " +:+ two_digit (hour ts) +:+ ":" +:+ two_digit (minute ts)
    +:+ ":" +:+ two_digit (second ts).

(** What [pd.to_datetime(s, errors="coerce")] returns for a string: a
    [Timestamp], or [NaT] when the string is not a date. *)
Inductive datetime_value : Type :=
| NaT
| Stamp (ts : timestamp).

Section NormalizeDate.

(** pandas' parser, as the code calls it; it may raise. *)
Variable to_datetime : string -> result datetime_value.

(** [_normalize_date_str(s)].  A [Timestamp] has [to_pydatetime] and the
    [datetime] it gives is formatted; the last line of the [try] block,
    [str(dt)[:10]], is for a value that is no [datetime] and is not reached
    from a [Timestamp]. *)
Definition _normalize_date_str (s : string) : result string :=
  if String.eqb s "" then Ok s
  else
    catch (let! dt := to_datetime s in
           match dt with
           | NaT => Ok s
           | Stamp ts => Ok (strftime_ymd ts)
           end)
          (fun _ => Ok s).

End NormalizeDate.

(** A small parser that stands for pandas where a concrete one is needed.
    It reads [MM/DD/YYYY], [YYYY-MM-DD] and a bare [YYYY] (the first of
    January), with a year from 1700 to 2200 and a day the month has, as
    pandas does; on any other string it answers [NaT], where pandas may do
    otherwise. *)
Definition two_digits (a b : ascii) : option N :=
  match digit_of a, digit_of b with
  | Some x, Some y => Some (Z.to_N (10 * x + y))
  | _, _ => None
  end.

Definition four_digits (a b c d : ascii) : option N :=
  match two_digits a b, two_digits c d with
  | Some x, Some y => Some (100 * x + y)%N
  | _, _ => None
  end.

Definition leap_year (y : N) : bool :=
  ((y mod 4 =? 0) && (negb (y mod 100 =? 0) || (y mod 400 =? 0)))%N.

Definition days_in_month (y m : N) : N :=
  if (m =? 2)%N then (if leap_year y then 29 else 28)%N
  else if ((m =? 4) || (m =? 6) || (m =? 9) || (m =? 11))%N then 30%N
  else 31%N.

Definition valid_ymd (y m d : N) : bool :=
  ((1700 <=? y) && (y <=? 2200) && (1 <=? m) && (m <=? 12)
   && (1 <=? d) && (d <=? days_in_month y m))%N.

Definition sample_to_datetime (s : string) : result datetime_value :=
  let mk y m d :=
    match y, m, d with
    | Some y, Some m, Some d =>
        if valid_ymd y m d then Ok (Stamp (Timestamp y m d 0 0 0)) else Ok NaT
    | _, _, _ => Ok NaT
    end in
  match list_ascii_of_string s with
  | [c0; c1; c2; c3; c4; c5; c6; c7; c8; c9] =>
      if (Ascii.eqb c2 "/" && Ascii.eqb c5 "/")%bool
      then mk (four_digits c6 c7 c8 c9) (two_digits c0 c1) (two_digits c3 c4)
      else if (Ascii.eqb c4 "-" && Ascii.eqb c7 "-")%bool
      then mk (four_digits c0 c1 c2 c3) (two_digits c5 c6) (two_digits c8 c9)
      else Ok NaT
  | [c0; c1; c2; c3] => mk (four_digits c0 c1 c2 c3) (Some 1%N) (Some 1%N)
  | _ => Ok NaT
  end.

(** ** Page geometry and module constants *)

Section Geometry.

Local Open Scope Q_scope.

Definition inch : Q := 72.
(** [letter = (8.5 * inch, 11 * inch)] *)
Definition PAGE_W : Q := (17 # 2) * inch.
Definition PAGE_H : Q := 11 * inch.
Definition MARGIN : Q := (125 # 1000) * inch.

Definition VER_FONT_SIZE : Q := 6.
Definition PAGE_FONT_SIZE : Q := 6.
Definition DISC_FONT_SIZE : Q := 6.
Definition FOOTER_RIGHT_X : Q := PAGE_W - (625 # 1000) * inch.
Definition VER_Y_ABS : Q := (45 # 100) * inch.
Definition PAGE_Y_ABS : Q := (32 # 100) * inch.
Definition DISC_X_ABS : Q := (125 # 1000) * inch.
Definition DISC_Y_ABS : Q := (90 # 100) * inch.
Definition DISC_WIDTH : Q := PAGE_W - 2 * (125 # 1000) * inch.

Definition CI_COL_WIDTHS : list Q := [117; 180; 117; 180].
Definition PI_COL_WIDTHS : list Q := [117; 180; 117; 180].
Definition TP_COL_WIDTHS : list Q := [174; 120; 60; 80; 80; 80].

Definition DATE_KEYS : list string :=
  ["orderDate"; "shippedDate"; "manufacturingDate"; "expirationDate"; "testDate"; "printDate"].

(** [sum(widths)]: a left fold from 0. *)
Definition sum (widths : list Q) : Q := fold_left Qplus widths 0.

(** [_fit_col_widths(widths, max_width)].  On a list of numbers
    [float(sum(widths))] does not raise, so the [except] branch is not
    taken. *)
Definition _fit_col_widths (widths : list Q) (max_width : Q) : list Q :=
  let total := sum widths in
  if Qle_bool total 0 then widths
  else if Qle_bool total max_width then widths
  else
    let scale := max_width / total in
    map (fun w => w * scale) widths.

(** What [ImageReader.getSize()] returns: width and height in pixels. *)
Record image : Type := Image { iw : positive; ih : positive }.

(** The local function [scaled_h] of [generate_coa_pdf_vector]. *)
Definition scaled_h (img_ir : option image) (max_width : Q) : Q :=
  match img_ir with
  | None => 0
  | Some img =>
      let scale := Qmin (max_width / inject_Z (Zpos (iw img))) 1 in
      inject_Z (Zpos (ih img)) * scale
  end.

Definition content_width : Q := PAGE_W - 2 * MARGIN.

(** A Python number is true when it is not zero. *)
Definition truthy (x : Q) : bool := negb (Qeq_bool x 0).

Definition top_margin (header_ir : option image) : Q :=
  let header_h := scaled_h header_ir content_width in
  MARGIN + (header_h + (if truthy header_h then 6 else 0)).

Definition bottom_margin (footer_ir : option image) : Q :=
  let footer_h := scaled_h footer_ir content_width in
  MARGIN + (footer_h + 36).

(** [BaseDocTemplate]: [width] and [height] are what the margins leave of
    the page size. *)
Record doc_template : Type := BaseDocTemplate {
  leftMargin : Q; rightMargin : Q; topMargin : Q; bottomMargin : Q
}.
Definition doc_width (d : doc_template) : Q := PAGE_W - leftMargin d - rightMargin d.
Definition doc_height (d : doc_template) : Q := PAGE_H - topMargin d - bottomMargin d.

(** [Frame(x1, y1, width, height)] *)
Record frame : Type := Frame { x1 : Q; y1 : Q; frame_width : Q; frame_height : Q }.

End Geometry.

(** ** Asset loader *)

(** What the file system holds at the path of a text asset. *)
Inductive text_file : Type :=
| NoTextFile                    (* no such file *)
| UnreadableText (why : string) (* cannot be opened, or is not UTF-8 *)
| TextFile (content : string).

(** What the file system holds at the path of an image asset. *)
Inductive image_file : Type :=
| NoImageFile                   (* [is_file()] is false *)
| StatFails (why : string)      (* [is_file()] raises *)
| BadImageFile (why : string)   (* a file that [ImageReader] rejects *)
| ImageFile (img : image).

(** The four fixed paths under [assets/]. *)
Record assets : Type := Assets {
  HEADER_PATH : image_file;
  FOOTER_PATH : image_file;
  DISCLAIMER_PATH : text_file;
  VERSION_PATH : text_file
}.

(** [path.read_text(encoding="utf-8")] *)
Definition read_text (path : text_file) : result string :=
  match path with
  | NoTextFile => Raise "No such file or directory"
  | UnreadableText why => Raise why
  | TextFile content => Ok content
  end.

(** [path.is_file()] *)
Definition is_file (path : image_file) : result bool :=
  match path with
  | NoImageFile => Ok false
  | StatFails why => Raise why
  | BadImageFile _ | ImageFile _ => Ok true
  end.

(** [ImageReader(str(path))] *)
Definition ImageReader (path : image_file) : result image :=
  match path with
  | ImageFile img => Ok img
  | BadImageFile why => Raise why
  | NoImageFile => Raise "No such file or directory"
  | StatFails why => Raise why
  end.

Definition _safe_read_text (path : text_file) (default : string) : result string :=
  catch (let! s := read_text path in Ok (strip s))
        (fun _ => Ok (strip default)).

(** The [try] block returns from the function ([Some]) or falls through
    ([None]) to the final [return None]. *)
Definition _image_reader_or_none (path : image_file) : result (option image) :=
  let! returned :=
    catch (let! b := is_file path in
           if b : bool then (let! img := ImageReader path in Ok (Some (Some img)))
           else Ok None)
          (fun _ => Ok None) in
  match returned with
  | Some v => Ok v
  | None => Ok None
  end.

Definition DEFAULT_DISCLAIMER : string :=
  "DISCLAIMER: Materials, products, and services are provided under our standard terms and conditions.".

(** ** Spreadsheet import *)

(** A cell of the [DataFrame] pandas reads with [header=None]. *)
Inductive cell : Type :=
| CStr (s : string)          (* text *)
| CNA                        (* NaN, None or NaT: [pd.isna] holds *)
| CTimestamp (ts : timestamp)
| CScalar (repr : string).   (* any other scalar, with what [str()] prints for it *)

Definition isna (c : cell) : bool :=
  match c with CNA => true | _ => false end.

(** [str(c)] *)
Definition str_cell (c : cell) : string :=
  match c with
  | CStr s => s
  | CNA => "nan"
  | CTimestamp ts => str_timestamp ts
  | CScalar repr => repr
  end.

(** The rows [df.iterrows()] yields. *)
Definition dataframe : Type := list (list cell).

(** The uploaded file: its name and what each pandas reader makes of its
    contents. *)
Record uploaded_file : Type := UploadedFile {
  name : string;
  read_csv : result dataframe;
  read_excel : result dataframe
}.

(** One turn of the loop over the rows; [continue] leaves [data] as it is. *)
Definition parse_row (data : gmap string string) (row : list cell) : gmap string string :=
  match row with
  | [] => data
  | field :: rest =>
      if match field with
         | CStr f => String.eqb (lower (strip f)) "field"
         | _ => false
         end
      then data
      else if isna field then data
      else
        let value := match rest with v :: _ => v | [] => CStr "" end in
        if isna value then data
        else
          let value := match value with
                       | CTimestamp ts => CStr (strftime_ymd ts)
                       | v => v
                       end in
          <[strip (str_cell field) := strip (str_cell value)]> data
  end.

(** [parse_uploaded_file(file)]: the dictionary and the messages given to
    [st.error]. *)
Definition parse_uploaded_file (file : option uploaded_file)
  : gmap string string * list string :=
  match file with
  | None => (∅, [])
  | Some f =>
      let fname := lower (name f) in
      let body : result (gmap string string * list string) :=
        if endswith fname ".csv" then
          let! df := read_csv f in Ok (fold_left parse_row df ∅, [])
        else if (endswith fname ".xls" || endswith fname ".xlsx")%bool then
          let! df := read_excel f in Ok (fold_left parse_row df ∅, [])
        else Ok (∅, ["Unsupported file type. Please upload CSV or Excel."]) in
      match body with
      | Ok r => r
      | Raise exc => (∅, ["Failed to parse uploaded file: " +:+ exc])
      end
  end.

(** ** The story: section tables *)

(** [d.get(k, "")] *)
Definition get (d : gmap string string) (k : string) : string := default "" (d !! k).

Inductive paragraph_style : Type := style_bar | style_cell | style_cell_bold.

Record paragraph : Type := Paragraph { text : string; style : paragraph_style }.

Record table : Type := Table {
  data : list (list paragraph);
  colWidths : list Q;
  repeatRows : nat
}.

Inductive flowable : Type :=
| FTable (t : table)
| FSpacer (width height : Q).

Definition section_bar (doc : doc_template) (label : string) : flowable :=
  FTable (Table [[Paragraph label style_bar]] [doc_width doc] 0).

Definition customer_info_rows (info : gmap string string)
  : list (string * string * string * string) :=
  [ ("Customer Name", get info "customerName", "Account Number", get info "accountNumber");
    ("Customer PO Number", get info "poNumber", "Supplier Quote Number", get info "quoteNumber");
    ("Order Date", get info "orderDate", "Quantity Shipped", get info "quantityShipped");
    ("Shipped Date", get info "shippedDate", "Shipped To Location", get info "shippedLocation") ].

Definition product_info_rows (info : gmap string string)
  : list (string * string * string * string) :=
  [ ("Item Name", get info "itemName", "Item SKU", get info "itemSKU");
    ("Lot Number", get info "lotNumber", "Manufacturing Location", get info "manufacturingLocation");
    ("Manufacturing Date", get info "manufacturingDate", "Test Date", get info "testDate");
    ("Expiration Date", get info "expirationDate", "Certificate Print Date", get info "printDate") ].

Section Story.

Variable to_datetime : string -> result datetime_value.

Definition ci_row (r : string * string * string * string) : result (list paragraph) :=
  let '(l1, v1, l2, v2) := r in
  let! kv1 := if (contains "order" (lower l1) || contains "shipped" (lower l1))%bool
              then _normalize_date_str to_datetime v1 else Ok v1 in
  let! kv2 := if (Bool.eqb (contains "quote" (lower l2)) false
                  && contains "shipped" (lower l2))%bool
              then _normalize_date_str to_datetime v2 else Ok v2 in
  Ok [Paragraph l1 style_cell_bold; Paragraph kv1 style_cell;
      Paragraph l2 style_cell_bold; Paragraph kv2 style_cell].

Definition ci_cells (info : gmap string string) : result (list (list paragraph)) :=
  for_each ci_row (customer_info_rows info).

Definition pi_date_words : list string :=
  ["manufacturing date"; "expiration"; "test date"; "print date"].

Definition pi_row (r : string * string * string * string) : result (list paragraph) :=
  let '(l1, v1, l2, v2) := r in
  let is_date1 := existsb (fun k => contains k (lower l1)) pi_date_words in
  let is_date2 := existsb (fun k => contains k (lower l2)) pi_date_words in
  let! kv1 := if is_date1 then _normalize_date_str to_datetime v1 else Ok v1 in
  let! kv2 := if is_date2 then _normalize_date_str to_datetime v2 else Ok v2 in
  Ok [Paragraph l1 style_cell_bold; Paragraph kv1 style_cell;
      Paragraph l2 style_cell_bold; Paragraph kv2 style_cell].

Definition pi_cells (info : gmap string string) : result (list (list paragraph)) :=
  for_each pi_row (product_info_rows info).

Definition tp_header : list paragraph :=
  map (fun l => Paragraph l style_cell_bold)
      ["PROPERTY"; "TEST METHOD"; "UNIT"; "LOWER LIMIT"; "UPPER LIMIT"; "RESULT"].

Definition tp_row (t : gmap string string) : list paragraph :=
  [Paragraph (get t "property") style_cell;
   Paragraph (get t "test_method") style_cell;
   Paragraph (get t "unit") style_cell;
   Paragraph (_sci_if_needed (Some (get t "lower_limit"))) style_cell;
   Paragraph (_sci_if_needed (Some (get t "upper_limit"))) style_cell;
   Paragraph (_sci_if_needed (Some (get t "result"))) style_cell].

Definition tp_data (tests : list (gmap string string)) : list (list paragraph) :=
  tp_header :: map tp_row tests.

(** The list [story] as [generate_coa_pdf_vector] fills it. *)
Definition story (doc : doc_template) (info : gmap string string)
           (tests : list (gmap string string)) : result (list flowable) :=
  let! ci := ci_cells info in
  let! pi := pi_cells info in
  Ok [ section_bar doc "CUSTOMER INFORMATION";
       FTable (Table ci (_fit_col_widths CI_COL_WIDTHS (doc_width doc)) 0);
       FSpacer 1 6;
       section_bar doc "PRODUCT INFORMATION";
       FTable (Table pi (_fit_col_widths PI_COL_WIDTHS (doc_width doc)) 0);
       FSpacer 1 6;
       section_bar doc "TESTED PROPERTIES";
       FTable (Table (tp_data tests) (_fit_col_widths TP_COL_WIDTHS (doc_width doc)) 1);
       FSpacer 1 6 ].

End Story.

(** ** The page-numbering canvas *)

(** What reaches the content stream of a page. *)
Inductive op : Type :=
| DrawFlowable (f : flowable)                     (* a piece of the story *)
| DrawImage (img : image) (x y width height : Q)
| DrawParagraph (p : string) (x y width : Q)      (* the disclaimer block *)
| SetFont (psfontname : string) (size : Q)
| SetFillColor (color : string)
| DrawRightString (x y : Q) (s : string).

(** The part of [self.__dict__] that changes from page to page.  The other
    entries of the dictionary are the same objects in every copy
    ([_saved_page_states] and the PDF document [_doc] are shared, the two
    constructor arguments never change), so restoring a copy leaves them as
    they are. *)
Record page_state : Type := PageState {
  _pageNumber : nat;
  _code : list op
}.

Record canvas : Type := Canvas {
  current : page_state;
  _saved_page_states : list page_state;
  _doc : list (list op);        (* the pages added to the PDF document *)
  _version_text : string;
  _footer_h : Q
}.

(** [NumberedCanvas(..., version_text, footer_h)]: a new canvas is on page 1. *)
Definition NumberedCanvas (version_text : string) (footer_h : Q) : canvas :=
  Canvas (PageState 1 []) [] [] version_text footer_h.

Definition with_current (c : canvas) (st : page_state) : canvas :=
  Canvas st (_saved_page_states c) (_doc c) (_version_text c) (_footer_h c).

(** Every drawing call appends to [self._code]. *)
Definition draw (o : op) (c : canvas) : canvas :=
  with_current c (PageState (_pageNumber (current c)) (_code (current c) ++ [o])).

Definition getPageNumber (c : canvas) : nat := _pageNumber (current c).

(** [Canvas._startPage]: the next page number and an empty stream. *)
Definition _startPage (c : canvas) : canvas :=
  with_current c (PageState (S (_pageNumber (current c))) []).

(** [Canvas.showPage], the method of the base class: the page goes to the
    document. *)
Definition Canvas_showPage (c : canvas) : canvas :=
  _startPage (Canvas (current c) (_saved_page_states c)
                     (_doc c ++ [_code (current c)]) (_version_text c) (_footer_h c)).

(** [NumberedCanvas.showPage] *)
Definition showPage (c : canvas) : canvas :=
  _startPage (Canvas (current c) (_saved_page_states c ++ [current c])
                     (_doc c) (_version_text c) (_footer_h c)).

Definition page_text (page_num total_pages : nat) : string :=
  "Page " +:+ dec (N.of_nat page_num) +:+ " of " +:+ dec (N.of_nat total_pages).

(** [NumberedCanvas._draw_footer_numbers] *)
Definition _draw_footer_numbers (total_pages : nat) (c : canvas) : canvas :=
  let page_num := getPageNumber c in
  let right_x := FOOTER_RIGHT_X in
  let c := draw (SetFont "Helvetica" VER_FONT_SIZE) c in
  let c := draw (SetFillColor "grey") c in
  let c := draw (DrawRightString right_x VER_Y_ABS (_version_text c)) c in
  let c := draw (SetFont "Helvetica" PAGE_FONT_SIZE) c in
  draw (DrawRightString right_x PAGE_Y_ABS (page_text page_num total_pages)) c.

(** [Canvas.save], the method of the base class: a page still open is
    shown, through the method of the subclass, and the document is written
    out. *)
Definition Canvas_save (c : canvas) : canvas :=
  match _code (current c) with
  | [] => c
  | _ :: _ => showPage c
  end.

(** [NumberedCanvas.save] *)
Definition save (c : canvas) : canvas :=
  let total_pages := length (_saved_page_states c) in
  let c :=
    fold_left
      (fun c state =>
         let c := with_current c state in              (* self.__dict__.update(state) *)
         let c := _draw_footer_numbers total_pages c in
         Canvas_showPage c)
      (_saved_page_states c) c in
  Canvas_save c.

(** The bytes [buffer.getvalue()] returns are the pages of the document. *)
Definition getvalue (c : canvas) : list (list op) := _doc c.

(** [doc.build]: the document template draws each page of the flow on the
    canvas and ends it with [showPage()], then calls [save()]. *)
Definition draw_page (c : canvas) (page : list op) : canvas :=
  showPage (fold_left (fun c o => draw o c) page c).

Definition collect (pages : list (list op)) (c : canvas) : canvas :=
  fold_left draw_page pages c.

Definition build (pages : list (list op)) (c : canvas) : canvas :=
  save (collect pages c).

(** The states a canvas goes through while the flow is laid out. *)
Inductive collecting (version_text : string) (footer_h : Q) : canvas -> Prop :=
| collecting_new : collecting version_text footer_h (NumberedCanvas version_text footer_h)
| collecting_draw c f :
    collecting version_text footer_h c ->
    collecting version_text footer_h (draw (DrawFlowable f) c)
| collecting_decorate_image c img x y w h :
    collecting version_text footer_h c ->
    collecting version_text footer_h (draw (DrawImage img x y w h) c)
| collecting_decorate_paragraph c p x y w :
    collecting version_text footer_h c ->
    collecting version_text footer_h (draw (DrawParagraph p x y w) c)
| collecting_showPage c :
    collecting version_text footer_h c ->
    collecting version_text footer_h (showPage c).

(** An operation that writes text with [drawRightString]. *)
Definition is_right_string (o : op) : bool :=
  match o with DrawRightString _ _ _ => true | _ => false end.

(** An operation of the layout pass: story content or page decoration. *)
Definition is_layout_op (o : op) : bool :=
  match o with
  | DrawFlowable _ | DrawImage _ _ _ _ _ | DrawParagraph _ _ _ _ => true
  | _ => false
  end.

(** The five operations [_draw_footer_numbers] adds to page [k] of [n]. *)
Definition footer_ops (version_text : string) (k n : nat) : list op :=
  [ SetFont "Helvetica" VER_FONT_SIZE;
    SetFillColor "grey";
    DrawRightString FOOTER_RIGHT_X VER_Y_ABS version_text;
    SetFont "Helvetica" PAGE_FONT_SIZE;
    DrawRightString FOOTER_RIGHT_X PAGE_Y_ABS (page_text k n) ].

(** The state captured for the page at index [k] when the canvas started
    the pass on page [first]. *)
Definition captured (first : nat) (k : nat) (page : list op) : page_state :=
  PageState (first + k) page.

(** One turn of the loop of [save]. *)
Definition finalize (total_pages : nat) (c : canvas) (state : page_state) : canvas :=
  Canvas_showPage (_draw_footer_numbers total_pages (with_current c state)).

(** Nothing is finalized and nothing is written with [drawRightString]:
    the canvas holds no page text. *)
Definition no_page_text (c : canvas) : Prop :=
  _doc c = []
  /\ Forall (fun o => is_right_string o = false) (_code (current c))
  /\ Forall (fun st => Forall (fun o => is_right_string o = false) (_code st))
            (_saved_page_states c).

(** ** The document assembler *)

Section Generate.

Variable to_datetime : string -> result datetime_value.

(** ReportLab's layout of the story in the frame: the pieces of the story
    that land on each page, in order. *)
Variable paginate : frame -> list flowable -> list (list flowable).

(** The callback [on_page], which the template runs at the start of every
    page. *)
Definition on_page (header_ir footer_ir : option image) (disclaimer_text : string)
  : list op :=
  let scaled (ir : option image) (place : Q -> Q) : list op :=
    match ir with
    | Some img =>
        let w := inject_Z (Zpos (iw img)) in
        let h := inject_Z (Zpos (ih img)) in
        let scale := Qmin (content_width / w) 1 in
        let new_w := (w * scale)%Q in
        let new_h := (h * scale)%Q in
        [DrawImage img MARGIN (place new_h) new_w new_h]
    | None => []
    end in
  (scaled header_ir (fun new_h => PAGE_H - MARGIN - new_h)%Q
   ++ scaled footer_ir (fun _ => MARGIN)
   ++ [DrawParagraph (strip disclaimer_text) DISC_X_ABS DISC_Y_ABS DISC_WIDTH])%list.

(** [generate_coa_pdf_vector(info, tests)], reading the assets from
    [fs].  What ReportLab itself may raise while it lays a page out is not
    part of the embedding. *)
Definition generate_coa_pdf_vector (fs : assets) (info : gmap string string)
           (tests : list (gmap string string)) : result (list (list op)) :=
  let! header_ir := _image_reader_or_none (HEADER_PATH fs) in
  let! footer_ir := _image_reader_or_none (FOOTER_PATH fs) in
  let! disclaimer_text := _safe_read_text (DISCLAIMER_PATH fs) DEFAULT_DISCLAIMER in
  let! version_text := _safe_read_text (VERSION_PATH fs) "1.0" in
  let footer_h := scaled_h footer_ir content_width in
  let doc := BaseDocTemplate MARGIN MARGIN (top_margin header_ir) (bottom_margin footer_ir) in
  let frm := Frame (leftMargin doc) (bottomMargin doc) (doc_width doc) (doc_height doc) in
  let! flowables := story to_datetime doc info tests in
  let pages :=
    map (fun fl => on_page header_ir footer_ir disclaimer_text ++ map DrawFlowable fl)
        (paginate frm flowables) in
  Ok (getvalue (build pages (NumberedCanvas version_text footer_h))).

End Generate.

(** ** Vocabulary of the statements *)

(** The string [_normalize_date_str] returns. *)
Definition normalized (to_datetime : string -> result datetime_value) (s : string) : string :=
  match _normalize_date_str to_datetime s with
  | Ok r => r
  | Raise _ => s
  end.

Definition is_digit (c : ascii) : bool :=
  match digit_of c with Some _ => true | None => false end.

(** The shape [YYYY-MM-DD]. *)
Definition is_ymd (s : string) : bool :=
  match list_ascii_of_string s with
  | [y1; y2; y3; y4; h1; m1; m2; h2; d1; d2] =>
      is_digit y1 && is_digit y2 && is_digit y3 && is_digit y4 && Ascii.eqb h1 "-"
      && is_digit m1 && is_digit m2 && Ascii.eqb h2 "-" && is_digit d1 && is_digit d2
  | _ => false
  end.

(** A timestamp whose fields are in the ranges of a calendar date with a
    year of four digits. *)
Definition calendar_date (ts : timestamp) : Prop :=
  (1000 <= year ts < 10000 /\ 1 <= month ts <= 12 /\ 1 <= day ts <= 31)%N.

(** No image can be read at the path: the file is missing, cannot be
    examined or is no image. *)
Definition image_absent (path : image_file) : Prop :=
  match path with ImageFile _ => False | _ => True end.

(** No text can be read at the path. *)
Definition text_absent (path : text_file) : Prop :=
  match path with TextFile _ => False | _ => True end.

(** What the loader yields for a path: the image if there is one, the
    stripped text if there is one and the stripped default otherwise. *)
Definition loaded_image (path : image_file) : option image :=
  match path with ImageFile img => Some img | _ => None end.

Definition loaded_text (path : text_file) (default : string) : string :=
  match path with TextFile content => strip content | _ => strip default end.

(** The 6 points left under a header image. *)
Definition header_gap (header_ir : option image) : Q :=
  match header_ir with Some _ => 6 | None => 0 end.

(** The document template [generate_coa_pdf_vector] builds for the two
    images. *)
Definition doc_for (header_ir footer_ir : option image) : doc_template :=
  BaseDocTemplate MARGIN MARGIN (top_margin header_ir) (bottom_margin footer_ir).

(** The import, in the words of the specification: the entry a row
    contributes to the field map, if any. *)
Definition is_header (field : cell) : bool :=
  match field with
  | CStr f => String.eqb (lower (strip f)) "field"
  | _ => false
  end.

Definition value_of (row : list cell) : cell :=
  match row with
  | _ :: v :: _ => v
  | _ => CStr ""
  end.

Definition stored_text (value : cell) : string :=
  match value with
  | CTimestamp ts => strip (strftime_ymd ts)
  | v => strip (str_cell v)
  end.

Definition row_entry (row : list cell) : option (string * string) :=
  match row with
  | [] => None
  | field :: _ =>
      if (is_header field || isna field || isna (value_of row))%bool then None
      else Some (strip (str_cell field), stored_text (value_of row))
  end.

(** One-decimal scientific notation of an integer from 1000 to 9999, by
    integer arithmetic: two significant digits, a tie going to the even
    digit. *)
Definition sci_of_thousands (n : Z) : string :=
  let q := (n / 100)%Z in
  let r := (n mod 100)%Z in
  let d := (if (50 <? r) || ((r =? 50) && Z.odd q) then q + 1 else q)%Z in
  if (d =? 100)%Z then "1.0E+04"
  else digit_char (d / 10) +:+ "." +:+ digit_char (d mod 10) +:+ "E+03".

(** The [k] numbers from [start] on. *)
Fixpoint upto (k : nat) (start : N) : list N :=
  match k with
  | O => []
  | S k' => start :: upto k' (N.succ start)
  end.

(** On a decimal numeral the float pipeline agrees with integer
    arithmetic. *)
Definition sci_agrees (n : N) : bool :=
  String.eqb (_sci_if_needed (Some (dec n)))
             (if (n <? 1000)%N then dec n else sci_of_thousands (Z.of_N n)).

(** A row that contributes an entry. *)
Definition kept (row : list cell) : bool :=
  match row_entry row with Some _ => true | None => false end.

(** The table pandas reads from the file, by the extension of its name;
    [None] for an extension that is not supported. *)
Definition table_of (f : uploaded_file) : option (result dataframe) :=
  let fname := lower (name f) in
  if endswith fname ".csv" then Some (read_csv f)
  else if (endswith fname ".xls" || endswith fname ".xlsx")%bool then Some (read_excel f)
  else None.

(** ** Form data and the name of the download *)

(** [form_values.get(f"{stem}{idx}", "").strip()] *)
Definition form_field (form_values : gmap string string) (stem : string) (idx : N) : string :=
  strip (get form_values (stem +:+ dec idx)).

(** The dictionary [entry] of [assemble_test_data] for the index [idx]. *)
Definition test_entry (form_values : gmap string string) (idx : N) : gmap string string :=
  <["result" := form_field form_values "result" idx]>
  (<["upper_limit" := form_field form_values "upperLimit" idx]>
  (<["lower_limit" := form_field form_values "lowerLimit" idx]>
  (<["unit" := form_field form_values "unit" idx]>
  (<["test_method" := form_field form_values "testMethod" idx]>
  (<["property" := form_field form_values "property" idx]> ∅))))).

(** [any(entry.values())]: a string is true when it is not empty. *)
Definition any_value (entry : gmap string string) : bool :=
  existsb (fun kv => negb (String.eqb (snd kv) "")) (map_to_list entry).

(** [range(1, 9)] *)
Definition range_1_9 : list N := [1; 2; 3; 4; 5; 6; 7; 8]%N.

(** One turn of the loop of [assemble_test_data]. *)
Definition assemble_step (form_values : gmap string string)
           (tests : list (gmap string string)) (idx : N) : list (gmap string string) :=
  let entry := test_entry form_values idx in
  if any_value entry then tests ++ [entry] else tests.

(** [assemble_test_data(form_values)] *)
Definition assemble_test_data (form_values : gmap string string) : list (gmap string string) :=
  fold_left (assemble_step form_values) range_1_9 [].

(** [s or default] on strings. *)
Definition or_else (s default : string) : string :=
  if String.eqb s "" then default else s.

(** The local [filename] of [main]. *)
Definition filename (vals : gmap string string) : string :=
  let sku := or_else (strip (get vals "itemSKU")) "ITEMSKU" in
  let lot := or_else (strip (get vals "lotNumber")) "LOTNUMBER" in
  let po := or_else (strip (get vals "poNumber")) "CUSTOMERPO" in
  sku +:+ "_" +:+ lot +:+ "_" +:+ po +:+ ".pdf".

(** The stems of the form keys of a test row, [property1] to [result8]. *)
Definition FORM_STEMS : list string :=
  ["property"; "testMethod"; "unit"; "lowerLimit"; "upperLimit"; "result"].

(** The keys of a test row and those of its numeric columns. *)
Definition TEST_KEYS : list string :=
  ["property"; "test_method"; "unit"; "lower_limit"; "upper_limit"; "result"].

Definition NUMERIC_KEYS : list string := ["lower_limit"; "upper_limit"; "result"].

(** The field keys the two key/value tables read. *)
Definition FIELD_KEYS : list string :=
  ["customerName"; "accountNumber"; "poNumber"; "quoteNumber"; "orderDate";
   "quantityShipped"; "shippedDate"; "shippedLocation"; "itemName"; "itemSKU";
   "lotNumber"; "manufacturingLocation"; "manufacturingDate"; "testDate";
   "expirationDate"; "printDate"].

(** A table whose rows have a cell for every column width and whose
    widths fit in [width]. *)
Definition table_fits (width : Q) (t : table) : Prop :=
  Forall (fun row => length row = length (colWidths t)) (data t)
  /\ (sum (colWidths t) <= width)%Q.

Definition flowable_fits (width : Q) (f : flowable) : Prop :=
  match f with
  | FTable t => table_fits width t
  | FSpacer _ _ => True
  end.

(** ** Where the decoration goes *)

(** An operation of [on_page] is an image at the left margin, scaled to fit
    the content width with its proportions kept, the header with its upper
    edge on the top margin and the footer with its lower edge on the bottom
    margin, or the disclaimer at its fixed place. *)
Definition decoration_placed (header_ir footer_ir : option image) (o : op) : Prop :=
  match o with
  | DrawImage img x y w h =>
      x = MARGIN
      /\ (0 < w /\ w <= content_width /\ w <= inject_Z (Zpos (iw img)))%Q
      /\ (0 < h /\ h <= inject_Z (Zpos (ih img)))%Q
      /\ (w * inject_Z (Zpos (ih img)) == h * inject_Z (Zpos (iw img)))%Q
      /\ ((header_ir = Some img /\ (y + h == PAGE_H - MARGIN)%Q)
          \/ (footer_ir = Some img /\ y = MARGIN))
  | DrawParagraph _ x y w =>
      x = DISC_X_ABS /\ y = DISC_Y_ABS /\ w = DISC_WIDTH
      /\ (x + w == PAGE_W - MARGIN)%Q
  | _ => False
  end.

(** An operation of [on_page] that draws an image keeps clear of the frame
    of the flowing content: the header ends 6 points above the top of the
    frame and the footer ends 36 points below its bottom. *)
Definition image_outside_frame (header_ir footer_ir : option image) (o : op) : Prop :=
  let doc := doc_for header_ir footer_ir in
  let frame_bottom := bottomMargin doc in
  let frame_top := (bottomMargin doc + doc_height doc)%Q in
  match o with
  | DrawImage img x y w h =>
      (header_ir = Some img /\ (y == frame_top + 6)%Q)
      \/ (footer_ir = Some img /\ (y + h + 36 == frame_bottom)%Q)
  | _ => True
  end.

(** ** The sign of a float *)

(** The float [f] with its sign set: negative when [neg]. *)
Definition with_sign (neg : bool) (f : pyfloat) : pyfloat :=
  match f with
  | PyNaN => PyNaN
  | PyInf _ => PyInf neg
  | PyFin _ m e => PyFin neg m e
  end.

(** * Properties *)

(** ** The embedding on sample inputs *)

Example strip_ex : strip "  42 " = "42".
Proof. reflexivity. Qed.

Example lower_ex : lower " Field" = " field".
Proof. reflexivity. Qed.

Example contains_ex : contains "shipped" "quantity shipped" = true.
Proof. reflexivity. Qed.

Example pad_ex : pad_dec 2 3 = "03" /\ dec 12 = "12" /\ dec 0 = "0".
Proof. repeat split; reflexivity. Qed.

Example sci_ex :
  _sci_if_needed (Some "1,500,000") = "1.5E+06"
  /\ _sci_if_needed (Some "-2500.0") = "-2.5E+03"
  /\ _sci_if_needed (Some "1_000") = "1.0E+03"
  /\ _sci_if_needed (Some "999.9") = "999.9".
Proof. repeat split; vm_compute; reflexivity. Qed.

Example normalize_ex :
  _normalize_date_str sample_to_datetime "03/14/2024" = Ok "2024-03-14"
  /\ _normalize_date_str sample_to_datetime "2024-02-29" = Ok "2024-02-29"
  /\ _normalize_date_str sample_to_datetime "not a date" = Ok "not a date"
  /\ _normalize_date_str sample_to_datetime "02/30/2024" = Ok "02/30/2024".
Proof. repeat split; vm_compute; reflexivity. Qed.

Example fit_ex :
  _fit_col_widths [100; 200; 100]%Q 200%Q = [100 * (200 / 400); 200 * (200 / 400); 100 * (200 / 400)]%Q
  /\ _fit_col_widths CI_COL_WIDTHS 594%Q = CI_COL_WIDTHS.
Proof. split; reflexivity. Qed.

Example canvas_two_pages :
  let body1 := DrawParagraph "terms" DISC_X_ABS DISC_Y_ABS DISC_WIDTH in
  let body2 := DrawFlowable (FSpacer 1 6) in
  getvalue (build [[body1]; [body2]] (NumberedCanvas "2.3" 0))
  = [ [body1] ++ footer_ops "2.3" 1 2; [body2] ++ footer_ops "2.3" 2 2 ]
  /\ page_text 1 2 = "Page 1 of 2"
  /\ page_text 2 2 = "Page 2 of 2".
Proof. repeat split; reflexivity. Qed.

(** ** Pagination *)

Section CanvasFacts.

Lemma draw_all (page : list op) (c : canvas) :
  fold_left (fun c o => draw o c) page c
  = with_current c (PageState (_pageNumber (current c)) (_code (current c) ++ page)).
Proof.
  revert c. induction page as [|o page IH]; intros [[pn code] saved doc v fh]; simpl.
  - by rewrite app_nil_r.
  - rewrite IH. simpl. unfold with_current; simpl. by rewrite <- app_assoc.
Qed.

Lemma collect_spec (pages : list (list op)) (c : canvas) :
  _code (current c) = [] ->
  collect pages c
  = Canvas (PageState (_pageNumber (current c) + length pages) [])
           (_saved_page_states c ++ imap (captured (_pageNumber (current c))) pages)
           (_doc c) (_version_text c) (_footer_h c).
Proof.
  revert c. induction pages as [|page pages IH]; intros [[pn code] saved doc v fh] Hc;
    simpl in *; subst code.
  - by rewrite Nat.add_0_r, app_nil_r.
  - unfold collect in IH. unfold draw_page at 1. rewrite draw_all. simpl.
    unfold showPage, _startPage, with_current; simpl.
    rewrite IH by reflexivity. simpl. f_equal.
    + f_equal. lia.
    + rewrite <- app_assoc. simpl. unfold captured at 2. rewrite Nat.add_0_r.
      do 2 f_equal. apply imap_ext. intros k p _. unfold captured, compose.
      f_equal. lia.
Qed.

Lemma finalize_spec total c st :
  finalize total c st
  = Canvas (PageState (S (_pageNumber st)) [])
           (_saved_page_states c)
           (_doc c ++ [_code st ++ footer_ops (_version_text c) (_pageNumber st) total])
           (_version_text c) (_footer_h c).
Proof.
  destruct c as [cur saved doc v fh], st as [pn code].
  unfold finalize, Canvas_showPage, _draw_footer_numbers, _startPage, draw,
    with_current, getPageNumber, footer_ops; simpl.
  by rewrite <- !app_assoc.
Qed.

Lemma finalize_all total (states : list page_state) (c : canvas) :
  let c' := fold_left (finalize total) states c in
  _doc c' = _doc c ++ map (fun st => _code st ++ footer_ops (_version_text c) (_pageNumber st) total) states
  /\ _saved_page_states c' = _saved_page_states c
  /\ _version_text c' = _version_text c
  /\ (states <> [] -> _code (current c') = [])
  /\ (states = [] -> c' = c).
Proof.
  revert c. induction states as [|st states IH]; intros c; cbn [fold_left map]; cbv zeta.
  - rewrite app_nil_r. done.
  - specialize (IH (finalize total c st)). cbv zeta in IH.
    destruct IH as (Hd & Hs & Hv & Hc & He).
    rewrite Hd, Hs, Hv, finalize_spec. cbn [_doc _saved_page_states _version_text].
    rewrite <- app_assoc.
    split; [done|]. split; [done|]. split; [done|]. split; [|done].
    intros _. destruct states as [|st' states'].
    + reflexivity.
    + rewrite <- (finalize_spec total c st). by apply Hc.
Qed.

Lemma save_unfold c :
  save c = Canvas_save (fold_left (finalize (length (_saved_page_states c)))
                                  (_saved_page_states c) c).
Proof. reflexivity. Qed.

Lemma collecting_no_page_text v fh c : collecting v fh c -> no_page_text c.
Proof.
  unfold no_page_text.
  induction 1 as [|c f _ IH|c img x y w h _ IH|c p x y w _ IH|c _ IH];
    simpl; try destruct IH as (Hd & Hc & Hs); repeat split; auto;
    try (apply Forall_app; split; [done | by constructor]).
Qed.

Lemma draw_page_collecting v fh c page :
  Forall (fun o => is_layout_op o = true) page ->
  collecting v fh c -> collecting v fh (draw_page c page).
Proof.
  intros Hp Hc. unfold draw_page. apply collecting_showPage.
  revert c Hc. induction Hp as [|o page Ho _ IH]; intros c Hc; simpl; [done|].
  apply IH. destruct o; try discriminate Ho; by constructor.
Qed.

Lemma collect_collecting v fh pages c :
  Forall (Forall (fun o => is_layout_op o = true)) pages ->
  collecting v fh c -> collecting v fh (collect pages c).
Proof.
  intros Hp. revert c. unfold collect.
  induction Hp as [|page pages Hpage _ IH]; intros c Hc; simpl; [done|].
  apply IH. by apply draw_page_collecting.
Qed.

Lemma build_spec version_text footer_h pages :
  let c0 := NumberedCanvas version_text footer_h in
  _saved_page_states (collect pages c0) = imap (captured 1) pages
  /\ _doc (collect pages c0) = []
  /\ getvalue (build pages c0)
     = imap (fun k page => page ++ footer_ops version_text (S k) (length pages)) pages.
Proof.
  cbv zeta. rewrite (collect_spec pages (NumberedCanvas version_text footer_h)) by done.
  cbn [NumberedCanvas _saved_page_states _doc current _pageNumber _version_text _footer_h app].
  split; [done|]. split; [done|].
  unfold build. rewrite (collect_spec pages (NumberedCanvas version_text footer_h)) by done.
  cbn [NumberedCanvas _saved_page_states _doc current _pageNumber _version_text _footer_h app].
  rewrite save_unfold. cbn [_saved_page_states]. rewrite length_imap.
  set (states := imap (captured 1) pages).
  set (c1 := Canvas _ states [] version_text footer_h).
  destruct (finalize_all (length pages) states c1) as (Hd & _ & _ & Hc & He).
  assert (Hsave : forall c, _code (current c) = [] -> Canvas_save c = c).
  { intros c Hcode. unfold Canvas_save. by rewrite Hcode. }
  unfold getvalue. rewrite Hsave.
  - rewrite Hd. subst c1 states. cbn [_doc _version_text app].
    change (map ?f ?l) with (f <$> l). rewrite fmap_imap.
    apply imap_ext. intros k page _. reflexivity.
  - destruct (decide (states = [])) as [Hnil|Hne].
    + rewrite He by done. reflexivity.
    + by apply Hc.
Qed.

End CanvasFacts.

(** C1.  A flow of N pages leaves exactly N captured page states, each
    with the operations of its page and nothing else.  In every state the
    canvas goes through while the layout pass draws and ends pages, no page
    is finalized and nothing is written with [drawRightString]: there is no
    page text before [save].  After [save] the document has N pages, page k
    being the captured page followed by the footer operations, which write
    the same version text on every page and the text "Page k of N", k
    counted from 1 and N the capture count. *)
Theorem pagination_page_k_of_n (version_text : string) (footer_h : Q) (pages : list (list op)) :
  let c0 := NumberedCanvas version_text footer_h in
  let n := length pages in
  length (_saved_page_states (collect pages c0)) = n
  /\ _saved_page_states (collect pages c0) = imap (captured 1) pages
  /\ _doc (collect pages c0) = []
  /\ (forall c, collecting version_text footer_h c -> no_page_text c)
  /\ (Forall (Forall (fun o => is_layout_op o = true)) pages ->
      collecting version_text footer_h (collect pages c0))
  /\ length (getvalue (build pages c0)) = n
  /\ getvalue (build pages c0)
     = imap (fun k page => page ++ footer_ops version_text (S k) n) pages
  /\ (forall k page, pages !! k = Some page ->
      exists final,
        getvalue (build pages c0) !! k = Some final
        /\ filter (fun o => is_right_string o = true) final
           = filter (fun o => is_right_string o = true) page
             ++ [DrawRightString FOOTER_RIGHT_X VER_Y_ABS version_text;
                 DrawRightString FOOTER_RIGHT_X PAGE_Y_ABS
                   ("Page " +:+ dec (N.of_nat (S k)) +:+ " of " +:+ dec (N.of_nat n))]).
Proof.
  cbv zeta.
  destruct (build_spec version_text footer_h pages) as (Hs & Hd & Hb).
  rewrite Hs, Hd, Hb, !length_imap.
  split; [done|]. split; [done|]. split; [done|].
  split; [apply collecting_no_page_text|].
  split; [intros Hp; apply collect_collecting; [done | constructor]|].
  split; [done|]. split; [done|].
  intros k page Hk. eexists. split.
  - rewrite list_lookup_imap, Hk. reflexivity.
  - rewrite filter_app. reflexivity.
Qed.


(** ** Column widths *)

Section FitFacts.

Local Open Scope Q_scope.

Lemma fold_Qplus_acc (l : list Q) (a : Q) :
  fold_left Qplus l a == a + fold_left Qplus l 0.
Proof.
  revert a. induction l as [|x l IH]; intros a; simpl.
  - ring.
  - rewrite (IH (a + x)), (IH (0 + x)). ring.
Qed.

Lemma sum_cons (x : Q) (l : list Q) : sum (x :: l) == x + sum l.
Proof. unfold sum. simpl. rewrite fold_Qplus_acc. ring. Qed.

Lemma sum_scale (k : Q) (l : list Q) : sum (map (fun w => w * k) l) == sum l * k.
Proof.
  induction l as [|x l IH].
  - unfold sum; simpl. ring.
  - change (map (fun w => w * k) (x :: l)) with (x * k :: map (fun w => w * k) l).
    rewrite !sum_cons, IH. ring.
Qed.

Lemma nth_scale (k : Q) (l : list Q) (i : nat) :
  nth i (map (fun w => w * k) l) 0 == nth i l 0 * k.
Proof.
  revert i. induction l as [|x l IH]; intros [|i]; simpl; try ring.
  apply IH.
Qed.

Lemma fit_unchanged (W : list Q) (M : Q) :
  sum W <= M \/ sum W <= 0 -> _fit_col_widths W M = W.
Proof.
  intros H. unfold _fit_col_widths.
  destruct (Qle_bool (sum W) 0) eqn:E0; [done|].
  destruct (Qle_bool (sum W) M) eqn:EM; [done|].
  destruct H as [H|H]; apply Qle_bool_iff in H; congruence.
Qed.

Lemma fit_scaled (W : list Q) (M : Q) :
  0 < sum W -> M < sum W ->
  _fit_col_widths W M = map (fun w => w * (M / sum W)) W.
Proof.
  intros H0 HM. unfold _fit_col_widths.
  destruct (Qle_bool (sum W) 0) eqn:E0.
  { apply Qle_bool_iff in E0. exfalso. apply (Qlt_not_le _ _ H0 E0). }
  destruct (Qle_bool (sum W) M) eqn:EM.
  { apply Qle_bool_iff in EM. exfalso. apply (Qlt_not_le _ _ HM EM). }
  reflexivity.
Qed.

Lemma Qdiv_scale (a b k : Q) : ~ k == 0 -> (a * k) / (b * k) == a / b.
Proof.
  intros Hk. destruct (Qeq_dec b 0) as [Hb|Hb].
  - rewrite Hb. assert (E : 0 * k == 0) by ring. rewrite E. unfold Qdiv.
    change (/ 0) with 0. ring.
  - field. split; assumption.
Qed.

End FitFacts.



Example fit_col_widths_shrinks :
  let W' := _fit_col_widths TP_COL_WIDTHS 297%Q in
  Forall2 Qeq W' [87; 60; 30; 40; 40; 40]%Q /\ (sum W' == 297)%Q.
Proof.
  split; [|reflexivity].
  repeat constructor.
Qed.

(** ** Dates *)

Section DateFacts.

Lemma digit_N_is_digit (d : N) : is_digit (digit_N d) = true.
Proof.
  unfold digit_N. assert (H : (d mod 10 < 10)%N) by (apply N.mod_lt; lia).
  destruct (d mod 10)%N as [|p] eqn:E; [reflexivity|].
  do 4 (destruct p as [p|p|]; try reflexivity; try lia).
Qed.

Lemma digit_not_space (c : ascii) : is_digit c = true -> py_isspace c = false.
Proof.
  unfold is_digit, digit_of, py_isspace.
  destruct ((48 <=? nat_of_ascii c)%nat && (nat_of_ascii c <=? 57)%nat) eqn:E; [|discriminate].
  intros _. apply andb_true_iff in E as [E1 E2].
  apply Nat.leb_le in E1, E2.
  repeat match goal with
         | |- context [(?a <=? ?b)%nat] =>
             destruct (Nat.leb_spec a b); try lia
         | |- context [(?a =? ?b)%nat] =>
             destruct (Nat.eqb_spec a b); try lia
         end; reflexivity.
Qed.

Lemma strftime_ymd_shape (ts : timestamp) :
  is_ymd (strftime_ymd ts) = true /\ strip (strftime_ymd ts) = strftime_ymd ts.
Proof.
  unfold strftime_ymd, four_digit, two_digit. cbv [String.append]. split.
  - unfold is_ymd. cbn [list_ascii_of_string]. rewrite !digit_N_is_digit. reflexivity.
  - unfold strip. cbn [lstrip].
    rewrite (digit_not_space _ (digit_N_is_digit (year ts / 1000))).
    cbn [rstrip]. rewrite (digit_not_space _ (digit_N_is_digit (day ts))).
    reflexivity.
Qed.

Lemma normalize_ok td s : _normalize_date_str td s = Ok (normalized td s).
Proof.
  unfold normalized, _normalize_date_str.
  destruct (String.eqb s ""); [done|].
  destruct (td s) as [[|ts]|msg]; reflexivity.
Qed.

End DateFacts.


(** ** Section tables *)

Section StoryFacts.

Variable to_datetime : string -> result datetime_value.
Variable info : gmap string string.

Let bold (l : string) : paragraph := Paragraph l style_cell_bold.
Let plain (k : string) : paragraph := Paragraph (get info k) style_cell.
Let date (k : string) : paragraph :=
  Paragraph (normalized to_datetime (get info k)) style_cell.

Lemma ci_cells_eq :
  ci_cells to_datetime info
  = Ok [ [bold "Customer Name"; plain "customerName";
          bold "Account Number"; plain "accountNumber"];
         [bold "Customer PO Number"; plain "poNumber";
          bold "Supplier Quote Number"; plain "quoteNumber"];
         [bold "Order Date"; date "orderDate";
          bold "Quantity Shipped"; date "quantityShipped"];
         [bold "Shipped Date"; date "shippedDate";
          bold "Shipped To Location"; date "shippedLocation"] ].
Proof.
  unfold ci_cells, customer_info_rows. cbn [for_each]. unfold ci_row.
  repeat match goal with
         | |- context [contains ?a (lower ?b)] =>
             let v := eval vm_compute in (contains a (lower b)) in
             change (contains a (lower b)) with v
         end.
  cbn [orb andb Bool.eqb bind]. rewrite !normalize_ok. reflexivity.
Qed.

Lemma pi_cells_eq :
  pi_cells to_datetime info
  = Ok [ [bold "Item Name"; plain "itemName"; bold "Item SKU"; plain "itemSKU"];
         [bold "Lot Number"; plain "lotNumber";
          bold "Manufacturing Location"; plain "manufacturingLocation"];
         [bold "Manufacturing Date"; date "manufacturingDate";
          bold "Test Date"; date "testDate"];
         [bold "Expiration Date"; date "expirationDate";
          bold "Certificate Print Date"; date "printDate"] ].
Proof.
  unfold pi_cells, product_info_rows. cbn [for_each]. unfold pi_row.
  repeat match goal with
         | |- context [existsb ?f pi_date_words] =>
             let v := eval vm_compute in (existsb f pi_date_words) in
             change (existsb f pi_date_words) with v
         end.
  cbn [bind]. rewrite !normalize_ok. reflexivity.
Qed.

Lemma story_ok doc tests : exists flowables, story to_datetime doc info tests = Ok flowables.
Proof. unfold story. rewrite ci_cells_eq, pi_cells_eq. cbn [bind]. eauto. Qed.

End StoryFacts.

(** C6.  What the two key/value tables hold, for every field map and
    every parser.  In the customer table the values of [orderDate] and
    [shippedDate] go through [_normalize_date_str], and so do the values
    of [quantityShipped] and [shippedLocation], which are no date keys;
    [accountNumber] and [quoteNumber] are shown as they are.  In the
    product table the four date keys, and only they, are normalized.  With
    a quantity of ["2024"] the cell reads ["2024-01-01"]. *)
Theorem customer_table_normalizes_shipped_fields
        (to_datetime : string -> result datetime_value) (info : gmap string string) :
  let bold l := Paragraph l style_cell_bold in
  let plain k := Paragraph (get info k) style_cell in
  let date k := Paragraph (normalized to_datetime (get info k)) style_cell in
  ci_cells to_datetime info
  = Ok [ [bold "Customer Name"; plain "customerName";
          bold "Account Number"; plain "accountNumber"];
         [bold "Customer PO Number"; plain "poNumber";
          bold "Supplier Quote Number"; plain "quoteNumber"];
         [bold "Order Date"; date "orderDate";
          bold "Quantity Shipped"; date "quantityShipped"];
         [bold "Shipped Date"; date "shippedDate";
          bold "Shipped To Location"; date "shippedLocation"] ]
  /\ pi_cells to_datetime info
     = Ok [ [bold "Item Name"; plain "itemName"; bold "Item SKU"; plain "itemSKU"];
            [bold "Lot Number"; plain "lotNumber";
             bold "Manufacturing Location"; plain "manufacturingLocation"];
            [bold "Manufacturing Date"; date "manufacturingDate";
             bold "Test Date"; date "testDate"];
            [bold "Expiration Date"; date "expirationDate";
             bold "Certificate Print Date"; date "printDate"] ]
  /\ ~ In "quantityShipped" DATE_KEYS
  /\ ~ In "shippedLocation" DATE_KEYS
  /\ (exists cells,
      ci_cells sample_to_datetime {[ "quantityShipped" := "2024" ]} = Ok cells
      /\ nth 3 (nth 2 cells []) (Paragraph "" style_cell)
         = Paragraph "2024-01-01" style_cell).
Proof.
  cbv zeta. split; [|split; [|split; [|split]]].
  - apply ci_cells_eq.
  - apply pi_cells_eq.
  - unfold DATE_KEYS. intros H. repeat (destruct H as [H|H]; [discriminate H|]). exact H.
  - unfold DATE_KEYS. intros H. repeat (destruct H as [H|H]; [discriminate H|]). exact H.
  - eexists. split; vm_compute; reflexivity.
Qed.

(** ** Page geometry *)

Section GeometryFacts.

Local Open Scope Q_scope.

Lemma content_width_pos : 0 < content_width.
Proof. reflexivity. Qed.

Lemma scale_bounds (img : image) :
  let scale := Qmin (content_width / inject_Z (Zpos (iw img))) 1 in
  0 < scale /\ scale <= 1.
Proof.
  cbv zeta. split.
  - apply Q.min_glb_lt; [|reflexivity].
    apply Qlt_shift_div_l; [reflexivity|]. rewrite Qmult_0_l. apply content_width_pos.
  - apply Q.le_min_r.
Qed.

Lemma scaled_h_some (img : image) :
  let h := scaled_h (Some img) content_width in
  0 < h /\ h <= inject_Z (Zpos (ih img))
  /\ (inject_Z (Zpos (iw img)) <= content_width -> h == inject_Z (Zpos (ih img))).
Proof.
  cbv zeta. unfold scaled_h.
  destruct (scale_bounds img) as [Hpos Hle]. cbv zeta in Hpos, Hle.
  set (scale := Qmin _ 1) in *.
  assert (Hih : 0 < inject_Z (Zpos (ih img))) by reflexivity.
  split; [|split].
  - apply Qmult_lt_0_compat; assumption.
  - rewrite <- (Qmult_1_r (inject_Z (Zpos (ih img)))) at 2.
    apply Qmult_le_l; assumption.
  - intros Hw. assert (E : scale == 1).
    { subst scale. apply Q.min_r. apply Qle_shift_div_l; [reflexivity|].
      rewrite Qmult_1_l. exact Hw. }
    rewrite E. ring.
Qed.

Lemma truthy_pos (x : Q) : 0 < x -> truthy x = true.
Proof.
  intros H. unfold truthy. destruct (Qeq_bool x 0) eqn:E; [|reflexivity].
  apply Qeq_bool_iff in E. rewrite E in H. by apply Qlt_irrefl in H.
Qed.

Lemma margins_sum (header_ir footer_ir : option image) :
  top_margin header_ir + bottom_margin footer_ir
  == 2 * MARGIN + 36 + scaled_h header_ir content_width + scaled_h footer_ir content_width
     + header_gap header_ir.
Proof.
  unfold top_margin, bottom_margin, header_gap. destruct header_ir as [img|].
  - rewrite truthy_pos by apply (scaled_h_some img). cbv iota. ring.
  - change (truthy (scaled_h None content_width)) with false. cbv iota. ring.
Qed.

End GeometryFacts.

(** C7 (as amended).  The margins are the 1/8 inch margin, the reserved
    bands and the fixed gaps, and nothing shrinks or clips them:
    [top_margin + bottom_margin] is [2 * MARGIN + 36] plus the two band
    heights, plus [6] when there is a header, each band being the image
    height scaled down, never up, to the content width.  The frame height is
    the page height less this sum; it is not negative exactly when the
    bands and gaps fit in the page, as they do when both images are
    absent. *)
Theorem margins_within_page_iff_bands_fit (header_ir footer_ir : option image) :
  let header_h := scaled_h header_ir content_width in
  let footer_h := scaled_h footer_ir content_width in
  let gap := header_gap header_ir in
  let doc := doc_for header_ir footer_ir in
  (top_margin header_ir + bottom_margin footer_ir
   == 2 * MARGIN + 36 + header_h + footer_h + gap)%Q
  /\ (0 <= header_h /\ 0 <= footer_h)%Q
  /\ (forall img, header_ir = Some img ->
      (header_h <= inject_Z (Zpos (ih img)))%Q
      /\ ((inject_Z (Zpos (iw img)) <= content_width)%Q ->
          (header_h == inject_Z (Zpos (ih img)))%Q))
  /\ (forall img, footer_ir = Some img ->
      (footer_h <= inject_Z (Zpos (ih img)))%Q
      /\ ((inject_Z (Zpos (iw img)) <= content_width)%Q ->
          (footer_h == inject_Z (Zpos (ih img)))%Q))
  /\ ((top_margin header_ir + bottom_margin footer_ir <= PAGE_H)%Q
      <-> (header_h + footer_h + gap <= 738)%Q)
  /\ ((0 <= doc_height doc)%Q <-> (header_h + footer_h + gap <= 738)%Q)
  /\ (header_ir = None -> footer_ir = None ->
      (top_margin header_ir + bottom_margin footer_ir == 54)%Q
      /\ (doc_height doc == 738)%Q).
Proof.
  cbv zeta.
  pose proof (margins_sum header_ir footer_ir) as Hsum.
  assert (Hnn : forall ir, (0 <= scaled_h ir content_width)%Q).
  { intros [img|]; [apply Qlt_le_weak, (scaled_h_some img) | apply Qle_refl]. }
  assert (Hm : (2 * MARGIN + 36 == 54)%Q) by reflexivity.
  assert (Hp : (PAGE_H == 792)%Q) by reflexivity.
  split; [exact Hsum|]. split; [split; apply Hnn|].
  split; [intros img ->; split; apply (scaled_h_some img)|].
  split; [intros img ->; split; apply (scaled_h_some img)|].
  unfold doc_height, doc_for; cbn [topMargin bottomMargin].
  set (top := top_margin header_ir) in *. set (bottom := bottom_margin footer_ir) in *.
  set (x := (scaled_h header_ir content_width + scaled_h footer_ir content_width
             + header_gap header_ir)%Q).
  assert (E : (top + bottom == 54 + x)%Q) by (rewrite Hsum; subst x; lra).
  split; [|split].
  - split; intros H; lra.
  - split; intros H; lra.
  - intros -> ->. subst top bottom. split; reflexivity.
Qed.

(** C7, the claim as the specification states it, fails: a header image
    100 pixels wide and 1000 high is no wider than the content; with no
    footer image the two margins take 1060 points of a page of 792, and the
    frame has a negative height. *)
Lemma tall_header_exceeds_page :
  let header_ir := Some (Image 100 1000) in
  (inject_Z (Zpos (iw (Image 100 1000))) <= content_width)%Q
  /\ (top_margin header_ir + bottom_margin None == 1060)%Q
  /\ ~ (top_margin header_ir + bottom_margin None <= PAGE_H)%Q
  /\ (doc_height (doc_for header_ir None) < 0)%Q.
Proof.
  cbv zeta. split; [|split; [|split]].
  - intros H. discriminate H.
  - reflexivity.
  - intros H. vm_compute in H. by apply H.
  - reflexivity.
Qed.

(** ** Assets *)

Section AssetFacts.

Lemma image_reader_or_none_eq (path : image_file) :
  _image_reader_or_none path = Ok (loaded_image path).
Proof. destruct path; reflexivity. Qed.

Lemma safe_read_text_eq (path : text_file) (default : string) :
  _safe_read_text path default = Ok (loaded_text path default).
Proof. destruct path; reflexivity. Qed.

Variable to_datetime : string -> result datetime_value.
Variable paginate : frame -> list flowable -> list (list flowable).

(** The pages [generate_coa_pdf_vector] returns, from what the loader
    yields. *)
Lemma generate_eq (fs : assets) (info : gmap string string) (tests : list (gmap string string)) :
  let header_ir := loaded_image (HEADER_PATH fs) in
  let footer_ir := loaded_image (FOOTER_PATH fs) in
  let disclaimer_text := loaded_text (DISCLAIMER_PATH fs) DEFAULT_DISCLAIMER in
  let version_text := loaded_text (VERSION_PATH fs) "1.0" in
  exists laid_out : list (list flowable),
    generate_coa_pdf_vector to_datetime paginate fs info tests
    = Ok (imap (fun k fl =>
                  (on_page header_ir footer_ir disclaimer_text ++ map DrawFlowable fl)
                  ++ footer_ops version_text (S k) (length laid_out))
               laid_out).
Proof.
  cbv zeta. unfold generate_coa_pdf_vector.
  rewrite !image_reader_or_none_eq, !safe_read_text_eq. cbn [bind].
  set (doc := BaseDocTemplate _ _ _ _).
  destruct (story_ok to_datetime info doc tests) as [flowables ->]. cbn [bind].
  set (laid_out := paginate _ flowables). exists laid_out.
  f_equal.
  destruct (build_spec (loaded_text (VERSION_PATH fs) "1.0")
              (scaled_h (loaded_image (FOOTER_PATH fs)) content_width)
              (map (fun fl => on_page (loaded_image (HEADER_PATH fs))
                                (loaded_image (FOOTER_PATH fs))
                                (loaded_text (DISCLAIMER_PATH fs) DEFAULT_DISCLAIMER)
                              ++ map DrawFlowable fl) laid_out)) as (_ & _ & ->).
  rewrite length_map. change (map ?f ?l) with (f <$> l) at 1. rewrite imap_fmap.
  reflexivity.
Qed.

End AssetFacts.


(** ** Numbers *)

Section SciFacts.

Lemma upto_In (k : nat) (start y : N) :
  (start <= y < start + N.of_nat k)%N -> In y (upto k start).
Proof.
  revert start. induction k as [|k IH]; intros start H; [lia|].
  cbn [upto]. destruct (N.eq_dec start y) as [->|Hne]; [by left|].
  right. apply IH. lia.
Qed.

Lemma sci_agrees_below_2000 : forallb sci_agrees (upto 2000 0) = true.
Proof. vm_compute. reflexivity. Qed.

End SciFacts.

(** C4 (as amended).  [_sci_if_needed] works on the argument stripped of
    surrounding white space, [t = s.strip()]: it returns [t] when [t] is
    empty, when [float] rejects [t] without its commas, and when the number
    is below 1000 in absolute value; it returns the [.1E] format of the
    number otherwise.  So a string with no surrounding white space is
    returned unchanged in the first three cases, ["1500"] gives
    ["1.5E+03"], ["42"] gives ["42"], ["abc"] gives ["abc"], and a decimal
    numeral from 1000 to 1999 gives its two leading digits, rounded to
    even on a tie, with exponent [E+03]. *)
Theorem sci_if_needed_on_stripped (s : string) :
  let t := strip s in
  (t = "" -> _sci_if_needed (Some s) = "")
  /\ (t <> "" -> py_float (remove_commas t) = None -> _sci_if_needed (Some s) = t)
  /\ (forall f, t <> "" -> py_float (remove_commas t) = Some f ->
      _sci_if_needed (Some s) = if abs_ge_1000 f then format_1E f else t)
  /\ (t = s ->
      py_float (remove_commas s) = None
      \/ (exists f, py_float (remove_commas s) = Some f /\ abs_ge_1000 f = false) ->
      _sci_if_needed (Some s) = s)
  /\ _sci_if_needed (Some "1500") = "1.5E+03"
  /\ _sci_if_needed (Some "42") = "42"
  /\ _sci_if_needed (Some "abc") = "abc"
  /\ _sci_if_needed (Some "1,500,000") = "1.5E+06"
  /\ _sci_if_needed (Some "9949") = "9.9E+03"
  /\ _sci_if_needed (Some "9950") = "1.0E+04"
  /\ (forall n : N, (n < 1000)%N -> _sci_if_needed (Some (dec n)) = dec n)
  /\ (forall n : N, (1000 <= n < 2000)%N ->
      _sci_if_needed (Some (dec n)) = sci_of_thousands (Z.of_N n)).
Proof.
  cbv zeta. unfold _sci_if_needed.
  split; [intros ->; reflexivity|].
  split.
  { intros Ht Hf. destruct (String.eqb_spec (strip s) ""); [done|]. by rewrite Hf. }
  split.
  { intros f Ht Hf. destruct (String.eqb_spec (strip s) ""); [done|]. by rewrite Hf. }
  split.
  { intros Hs H. rewrite Hs. destruct (String.eqb_spec s ""); [done|].
    destruct H as [-> | (f & -> & ->)]; reflexivity. }
  split; [vm_compute; reflexivity|].
  split; [vm_compute; reflexivity|].
  split; [vm_compute; reflexivity|].
  split; [vm_compute; reflexivity|].
  split; [vm_compute; reflexivity|].
  split; [vm_compute; reflexivity|].
  pose proof sci_agrees_below_2000 as All. rewrite forallb_forall in All.
  assert (Hn : forall n : N, (n < 2000)%N ->
               _sci_if_needed (Some (dec n))
               = if (n <? 1000)%N then dec n else sci_of_thousands (Z.of_N n)).
  { intros n Hn. apply String.eqb_eq. apply All. apply upto_In. lia. }
  unfold _sci_if_needed in Hn. split.
  - intros n H. rewrite Hn by lia. destruct (N.ltb_spec n 1000); [done|lia].
  - intros n H. rewrite Hn by lia. destruct (N.ltb_spec n 1000); [lia|done].
Qed.

(** C4, the claim as the specification states it, fails: [" 42 "] parses
    to a number below 1000 and the result is ["42"], not the string that
    was given. *)
Lemma sci_if_needed_strips_whitespace :
  (exists f, py_float (remove_commas " 42 ") = Some f /\ abs_ge_1000 f = false)
  /\ _sci_if_needed (Some " 42 ") = "42"
  /\ _sci_if_needed (Some " 42 ") <> " 42 ".
Proof.
  split; [|split].
  - eexists. split; vm_compute; reflexivity.
  - vm_compute; reflexivity.
  - vm_compute. discriminate.
Qed.

(** ** Import *)

Section ImportFacts.

Implicit Types (data : gmap string string) (df : dataframe) (row : list cell).

Lemma parse_row_entry data row :
  parse_row data row
  = match row_entry row with
    | Some (k, v) => <[k := v]> data
    | None => data
    end.
Proof.
  destruct row as [|field rest]; [reflexivity|].
  unfold parse_row, row_entry, is_header, value_of.
  destruct field as [f| |fts|fr]; cbn [isna orb];
    try destruct (String.eqb (lower (strip f)) "field"); cbn [orb]; try reflexivity;
    destruct rest as [|[v| |ts|r] rest']; reflexivity.
Qed.

Lemma parse_rows_filter df data :
  fold_left parse_row df data = fold_left parse_row (List.filter kept df) data.
Proof.
  revert data. induction df as [|row df IH]; intros data; [reflexivity|].
  cbn [fold_left List.filter]. unfold kept at 1.
  destruct (row_entry row) as [[k v]|] eqn:E.
  - cbn [fold_left]. apply IH.
  - rewrite parse_row_entry, E. apply IH.
Qed.

Lemma parse_rows_sound df data k v :
  fold_left parse_row df data !! k = Some v ->
  data !! k = Some v \/ exists row, In row df /\ row_entry row = Some (k, v).
Proof.
  revert data. induction df as [|row df IH]; intros data H; [by left|].
  cbn [fold_left] in H. apply IH in H as [H | (r & Hin & Hr)].
  - rewrite parse_row_entry in H. destruct (row_entry row) as [[k' v']|] eqn:E.
    + destruct (decide (k' = k)) as [->|Hne].
      * rewrite lookup_insert_eq in H. injection H as ->.
        right. exists row. split; [by left | done].
      * rewrite lookup_insert_ne in H by done. by left.
    + by left.
  - right. exists r. split; [by right | done].
Qed.

Lemma parse_rows_untouched df data k :
  Forall (fun row => forall v, row_entry row <> Some (k, v)) df ->
  fold_left parse_row df data !! k = data !! k.
Proof.
  intros H. revert data. induction H as [|row df Hrow _ IH]; intros data; [reflexivity|].
  cbn [fold_left]. rewrite IH, parse_row_entry.
  destruct (row_entry row) as [[k' v']|]; [|reflexivity].
  apply lookup_insert_ne. intros ->. by apply (Hrow v').
Qed.

Lemma parse_rows_last df pre row post data k v :
  df = pre ++ row :: post ->
  row_entry row = Some (k, v) ->
  Forall (fun row => forall v, row_entry row <> Some (k, v)) post ->
  fold_left parse_row df data !! k = Some v.
Proof.
  intros -> Hrow Hpost. rewrite fold_left_app. cbn [fold_left].
  rewrite parse_rows_untouched by done.
  rewrite parse_row_entry, Hrow. apply lookup_insert_eq.
Qed.

Lemma parse_uploaded_file_table f df :
  table_of f = Some (Ok df) ->
  parse_uploaded_file (Some f) = (fold_left parse_row df ∅, []).
Proof.
  unfold table_of, parse_uploaded_file.
  destruct (endswith (lower (name f)) ".csv").
  - intros [= ->]. reflexivity.
  - destruct (endswith (lower (name f)) ".xls" || endswith (lower (name f)) ".xlsx").
    + intros [= ->]. reflexivity.
    + discriminate.
Qed.

Lemma append_not_self (s t : string) (c : ascii) : s +:+ String c t <> s.
Proof.
  induction s as [|a s IH]; cbn [String.append]; intros H.
  - discriminate H.
  - injection H as H. by apply IH.
Qed.

End ImportFacts.

(** C9 (as amended).  For a file pandas can read, the map is built from
    the rows that have a first cell which is neither the header word
    [field] (in any case, with any surrounding white space) nor missing, and
    a value the reader does not report as missing; all other rows can be
    deleted from the file without changing the map.  Every entry of the map
    comes from such a row, its value being the text of the cell stripped of
    surrounding white space (a text cell of white space only is kept, as the
    empty string).  No error is reported. *)
Theorem import_skips_header_and_missing (f : uploaded_file) (df : dataframe) :
  table_of f = Some (Ok df) ->
  let data := fst (parse_uploaded_file (Some f)) in
  snd (parse_uploaded_file (Some f)) = []
  /\ data = fold_left parse_row (List.filter kept df) ∅
  /\ (forall field rest,
      is_header field = true \/ isna field = true \/ isna (value_of (field :: rest)) = true ->
      kept (field :: rest) = false)
  /\ (forall k v, data !! k = Some v ->
      exists field rest,
        In (field :: rest) df
        /\ is_header field = false /\ isna field = false
        /\ isna (value_of (field :: rest)) = false
        /\ k = strip (str_cell field)
        /\ v = stored_text (value_of (field :: rest))).
Proof.
  intros Ht. cbv zeta. rewrite (parse_uploaded_file_table f df Ht). cbn [fst snd].
  split; [reflexivity|]. split; [apply parse_rows_filter|]. split.
  - intros field rest H. unfold kept, row_entry.
    destruct H as [-> | [-> | ->]]; rewrite ?orb_true_r; reflexivity.
  - intros k v H. apply parse_rows_sound in H as [H | (row & Hin & Hrow)].
    { rewrite lookup_empty in H. discriminate H. }
    destruct row as [|field rest]; [discriminate Hrow|].
    exists field, rest. unfold row_entry in Hrow.
    destruct (is_header field) eqn:E1; [discriminate Hrow|].
    destruct (isna field) eqn:E2; [discriminate Hrow|].
    destruct (isna (value_of (field :: rest))) eqn:E3; [discriminate Hrow|].
    cbn [orb] in Hrow. injection Hrow as <- <-. done.
Qed.

(** The file of the specification's example: a header row, a row with a
    missing value and two rows with values. *)
Lemma import_skips_header_and_missing_witness :
  let df := [ [CStr "Field"; CStr "Value"];
              [CStr "customerName"; CStr "Acme"];
              [CStr "poNumber"; CNA];
              [CStr "lotNumber"; CStr " L-7 "] ] in
  let f := UploadedFile "coa.CSV" (Ok df) (Raise "not a workbook") in
  table_of f = Some (Ok df)
  /\ snd (parse_uploaded_file (Some f)) = []
  /\ fst (parse_uploaded_file (Some f)) = fold_left parse_row (List.filter kept df) ∅
  /\ fst (parse_uploaded_file (Some f)) !! "customerName" = Some "Acme"
  /\ fst (parse_uploaded_file (Some f)) !! "lotNumber" = Some "L-7"
  /\ fst (parse_uploaded_file (Some f)) !! "poNumber" = None
  /\ fst (parse_uploaded_file (Some f)) !! "Field" = None.
Proof.
  intros df f.
  assert (Ht : table_of f = Some (Ok df)) by reflexivity.
  destruct (import_skips_header_and_missing f df Ht) as (Herr & Hdata & _ & _).
  split; [exact Ht|]. split; [exact Herr|]. split; [exact Hdata|].
  repeat split; vm_compute; reflexivity.
Defined.

(** C9, the claim as the specification states it, fails: a value cell of
    three spaces is blank, and the map stores the empty string for it. *)
Lemma blank_text_value_stored_as_empty :
  let df := [ [CStr "field"; CStr "value"]; [CStr "customerName"; CStr "   "] ] in
  let f := UploadedFile "coa.csv" (Ok df) (Raise "not a workbook") in
  strip "   " = ""
  /\ fst (parse_uploaded_file (Some f)) !! "customerName" = Some "".
Proof. split; vm_compute; reflexivity. Qed.



(** * Further properties of the code *)

(** ** Strings *)

Section StripFacts.

Lemma lstrip_head (s : string) :
  lstrip s = "" \/ exists c t, lstrip s = String c t /\ py_isspace c = false.
Proof.
  induction s as [|c s IH]; [by left|]. cbn [lstrip].
  destruct (py_isspace c) eqn:E; [exact IH|]. right. by exists c, s.
Qed.

Lemma rstrip_head (c : ascii) (s : string) :
  py_isspace c = false -> exists t, rstrip (String c s) = String c t.
Proof.
  intros E. cbn [rstrip]. destruct (rstrip s) as [|c' t'].
  - rewrite E. by exists "".
  - by exists (String c' t').
Qed.

Lemma rstrip_idemp (s : string) : rstrip (rstrip s) = rstrip s.
Proof.
  induction s as [|c s IH]; [reflexivity|]. cbn [rstrip].
  destruct (rstrip s) as [|c' t'] eqn:E.
  - destruct (py_isspace c) eqn:Ec; [reflexivity|]. cbn [rstrip]. by rewrite Ec.
  - change (rstrip (String c (String c' t'))) with
      (match rstrip (String c' t') with
       | EmptyString => if py_isspace c then EmptyString else String c EmptyString
       | t => String c t
       end).
    by rewrite IH.
Qed.

Lemma strip_idemp (s : string) : strip (strip s) = strip s.
Proof.
  unfold strip. destruct (lstrip_head s) as [-> | (c & t & -> & Hc)]; [reflexivity|].
  destruct (rstrip_head c t Hc) as [t' E]. rewrite E.
  cbn [lstrip]. rewrite Hc, <- E. apply rstrip_idemp.
Qed.

Lemma append_assoc (a b c : string) : (a +:+ b) +:+ c = a +:+ (b +:+ c).
Proof.
  induction a as [|x a IH]; [reflexivity|].
  change (String x ((a +:+ b) +:+ c) = String x (a +:+ (b +:+ c))).
  by rewrite IH.
Qed.

Lemma endswith_refl (s : string) : endswith s s = true.
Proof. destruct s; cbn [endswith]; by rewrite String.eqb_refl. Qed.

Lemma endswith_append (a b : string) : endswith (a +:+ b) b = true.
Proof.
  induction a as [|x a IH]; [apply endswith_refl|].
  change (String x a +:+ b) with (String x (a +:+ b)).
  cbn [endswith]. rewrite IH. apply orb_true_r.
Qed.

Lemma or_else_nonempty (s default : string) : default <> "" -> or_else s default <> "".
Proof.
  intros Hd. unfold or_else. destruct (String.eqb_spec s ""); [exact Hd | assumption].
Qed.

End StripFacts.

(** ** Test rows *)

Ltac pick_disjunct :=
  repeat first [reflexivity | split; reflexivity | left; reflexivity
               | left; split; reflexivity | right].

Section AssembleFacts.

Implicit Types (form : gmap string string) (entry t : gmap string string).

Lemma any_value_spec entry :
  any_value entry = true <-> exists k v, entry !! k = Some v /\ v <> "".
Proof.
  unfold any_value. rewrite existsb_exists. split.
  - intros ([k v] & Hin & Hv). exists k, v. split.
    + apply elem_of_map_to_list. by apply list_elem_of_In.
    + cbn [snd] in Hv. intros ->. discriminate Hv.
  - intros (k & v & Hkv & Hv). exists (k, v). split.
    + apply list_elem_of_In. by apply elem_of_map_to_list.
    + cbn [snd]. destruct (String.eqb_spec v ""); [done | reflexivity].
Qed.

Lemma test_entry_lookup form idx k v :
  test_entry form idx !! k = Some v <->
  (k = "property" /\ v = form_field form "property" idx)
  \/ (k = "test_method" /\ v = form_field form "testMethod" idx)
  \/ (k = "unit" /\ v = form_field form "unit" idx)
  \/ (k = "lower_limit" /\ v = form_field form "lowerLimit" idx)
  \/ (k = "upper_limit" /\ v = form_field form "upperLimit" idx)
  \/ (k = "result" /\ v = form_field form "result" idx).
Proof.
  unfold test_entry. rewrite !lookup_insert, lookup_empty.
  repeat case_decide; subst;
    (split; [intros [= <-]; auto 10
            | intros Hd; destruct_or?; destruct_and?; subst; congruence]).
Qed.

Lemma assemble_fold form idxs acc :
  fold_left (assemble_step form) idxs acc
  = acc ++ List.filter any_value (map (test_entry form) idxs).
Proof.
  revert acc. induction idxs as [|i idxs IH]; intros acc; cbn [fold_left map List.filter].
  - by rewrite app_nil_r.
  - rewrite IH. unfold assemble_step. destruct (any_value (test_entry form i)).
    + by rewrite <- app_assoc.
    + reflexivity.
Qed.

Lemma assemble_eq form :
  assemble_test_data form = List.filter any_value (map (test_entry form) range_1_9).
Proof. unfold assemble_test_data. by rewrite assemble_fold. Qed.

Lemma kept_entries_In form (idxs : list N) t :
  In t (List.filter any_value (map (test_entry form) idxs)) ->
  exists idx, In idx idxs /\ t = test_entry form idx /\ any_value t = true.
Proof.
  intros H. destruct (proj1 (filter_In any_value t (map (test_entry form) idxs)) H) as [Hin Hany].
  destruct (proj1 (in_map_iff (test_entry form) idxs t) Hin) as (idx & Heq & Hidx).
  exists idx. split; [exact Hidx|]. split; [symmetry; exact Heq | exact Hany].
Qed.

Lemma assemble_In form t :
  In t (assemble_test_data form) ->
  exists idx, In idx range_1_9 /\ t = test_entry form idx /\ any_value t = true.
Proof. rewrite assemble_eq. apply kept_entries_In. Qed.

Lemma form_field_stripped form stem idx :
  strip (form_field form stem idx) = form_field form stem idx.
Proof. apply strip_idemp. Qed.

Lemma get_stripped entry k :
  (forall v, entry !! k = Some v -> strip v = v) -> strip (get entry k) = get entry k.
Proof.
  unfold get. intros H. destruct (entry !! k) as [v|]; [|reflexivity].
  cbn [default]. apply H. reflexivity.
Qed.

Lemma test_entry_stripped form idx k v :
  test_entry form idx !! k = Some v -> strip v = v.
Proof.
  intros E. apply test_entry_lookup in E.
  destruct_or?; destruct_and?; subst; apply form_field_stripped.
Qed.

Lemma assemble_values_stripped form t k :
  In t (assemble_test_data form) -> strip (get t k) = get t k.
Proof.
  intros H. apply assemble_In in H as (idx & _ & -> & _).
  apply get_stripped. intros v. apply test_entry_stripped.
Qed.

(** What is known of an entry once its construction is forgotten. *)
Lemma entry_keys entry :
  (forall k v, entry !! k = Some v -> In k TEST_KEYS)
  -> (forall k, In k TEST_KEYS -> is_Some (entry !! k))
  -> forall k, is_Some (entry !! k) <-> In k TEST_KEYS.
Proof.
  intros H1 H2 k. split; [intros [v Hv]; exact (H1 k v Hv) | apply H2].
Qed.

Lemma test_entry_keys_1 form idx k v :
  test_entry form idx !! k = Some v -> In k TEST_KEYS.
Proof.
  intros E. apply test_entry_lookup in E. unfold TEST_KEYS. cbn [In].
  destruct_or?; destruct_and?; subst; pick_disjunct.
Qed.

Lemma test_entry_keys_2 form idx k :
  In k TEST_KEYS -> is_Some (test_entry form idx !! k).
Proof.
  unfold TEST_KEYS. cbn [In]. intros Hk.
  destruct_or?; subst; try contradiction; eexists; apply test_entry_lookup; pick_disjunct.
Qed.

Lemma any_value_fields form idx :
  any_value (test_entry form idx) = true
  <-> exists stem, In stem FORM_STEMS /\ form_field form stem idx <> "".
Proof.
  rewrite any_value_spec. split.
  - intros (k & v & Hkv & Hv). apply test_entry_lookup in Hkv.
    unfold FORM_STEMS. destruct_or?; destruct_and?; subst; eexists; (split; [|exact Hv]);
      cbn [In]; pick_disjunct.
  - intros (stem & Hin & Hne). unfold FORM_STEMS in Hin. cbn [In] in Hin.
    destruct_or?; subst; try contradiction;
      [exists "property"|exists "test_method"|exists "unit"
      |exists "lower_limit"|exists "upper_limit"|exists "result"];
      eexists; (split; [apply test_entry_lookup; pick_disjunct | exact Hne]).
Qed.

Lemma assemble_In_intro form idx :
  In idx range_1_9 -> any_value (test_entry form idx) = true ->
  In (test_entry form idx) (assemble_test_data form).
Proof.
  intros Hidx Hany. rewrite assemble_eq. apply filter_In. split; [|exact Hany].
  apply in_map. exact Hidx.
Qed.

Lemma singleton_field (key value stem : string) (idx : N) :
  stem +:+ dec idx = key ->
  form_field {[ key := value ]} stem idx = strip value.
Proof.
  intros <-. unfold form_field, get. rewrite lookup_singleton_eq. reflexivity.
Qed.

End AssembleFacts.

(** X1.  [assemble_test_data] goes through the indices 1 to 8 in order and
    keeps the entry of an index exactly when one of its six form fields is
    not empty once stripped: it returns at most eight rows, none for a form
    that has none of the keys. *)
Theorem assemble_keeps_nonempty_groups (form_values : gmap string string) :
  assemble_test_data form_values
  = List.filter any_value (map (test_entry form_values) range_1_9)
  /\ length (assemble_test_data form_values) <= 8
  /\ (forall idx,
      any_value (test_entry form_values idx) = true
      <-> exists stem, In stem FORM_STEMS /\ form_field form_values stem idx <> "")
  /\ ((forall stem idx, In stem FORM_STEMS -> In idx range_1_9 ->
       form_values !! (stem +:+ dec idx) = None) ->
      assemble_test_data form_values = []).
Proof.
  pose proof (any_value_fields form_values) as Hany.
  split; [apply assemble_eq|]. split; [|split; [exact Hany|]].
  - rewrite assemble_eq.
    etransitivity; [apply List.filter_length_le|]. by rewrite length_map.
  - intros Hnone. rewrite assemble_eq.
    assert (Hall : forall idx, In idx range_1_9 -> any_value (test_entry form_values idx) = false).
    { intros idx Hidx. destruct (any_value (test_entry form_values idx)) eqn:E; [|reflexivity].
      apply Hany in E as (stem & Hstem & Hne). exfalso. apply Hne.
      unfold form_field, get. by rewrite (Hnone stem idx Hstem Hidx). }
    clear Hnone. revert Hall. generalize range_1_9 as l.
    induction l as [|i l IH]; intros Hall; [reflexivity|].
    cbn [map List.filter]. rewrite (Hall i (or_introl eq_refl)).
    apply IH. intros idx Hidx. apply Hall. right. exact Hidx.
Qed.

(** X2.  Every row [assemble_test_data] returns has the six keys of a test
    row and no other, holds values without surrounding white space, and has
    a value that is not empty. *)
Theorem assembled_rows_well_formed (form_values t : gmap string string) :
  In t (assemble_test_data form_values) ->
  (forall k, is_Some (t !! k) <-> In k TEST_KEYS)
  /\ (forall k, strip (get t k) = get t k)
  /\ (exists k, In k TEST_KEYS /\ get t k <> "").
Proof.
  intros Hin. split; [|split].
  - destruct (assemble_In _ _ Hin) as (idx & _ & -> & _). clear Hin.
    apply entry_keys; [apply test_entry_keys_1 | apply test_entry_keys_2].
  - intros k. exact (assemble_values_stripped _ _ k Hin).
  - destruct (assemble_In _ _ Hin) as (idx & _ & -> & Hany). clear Hin.
    apply any_value_spec in Hany as (k & v & Hkv & Hv). exists k. split.
    + exact (test_entry_keys_1 _ _ _ _ Hkv).
    + unfold get. rewrite Hkv. exact Hv.
Qed.

Lemma assembled_rows_well_formed_witness :
  let form := {[ "result3" := " 0.5 " ]} : gmap string string in
  let t := test_entry form 3 in
  In t (assemble_test_data form)
  /\ (forall k, is_Some (t !! k) <-> In k TEST_KEYS)
  /\ (forall k, strip (get t k) = get t k)
  /\ (exists k, In k TEST_KEYS /\ get t k <> "").
Proof.
  intros form t.
  assert (Hin : In t (assemble_test_data form)).
  { apply assemble_In_intro; [cbn [range_1_9 In]; pick_disjunct|].
    apply any_value_fields. exists "result". split; [cbn [FORM_STEMS In]; pick_disjunct|].
    unfold form. rewrite (singleton_field "result3" " 0.5 " "result" 3 eq_refl).
    discriminate. }
  split; [exact Hin|]. exact (assembled_rows_well_formed form t Hin).
Defined.

(** X3.  On a row of [assemble_test_data] the cell of a column is the
    stored value itself, or the [.1E] format of a value that parses to a
    number of absolute value at least 1000: no stripping is left to do. *)
Theorem assembled_cells_unchanged_or_scientific (form_values t : gmap string string)
        (key : string) :
  In t (assemble_test_data form_values) ->
  _sci_if_needed (Some (get t key)) = get t key
  \/ exists f,
      py_float (remove_commas (get t key)) = Some f
      /\ abs_ge_1000 f = true
      /\ _sci_if_needed (Some (get t key)) = format_1E f.
Proof.
  intros Hin. pose proof (assemble_values_stripped _ _ key Hin) as Hs.
  unfold _sci_if_needed. rewrite Hs.
  destruct (String.eqb (get t key) ""); [left; reflexivity|].
  destruct (py_float (remove_commas (get t key))) as [f|]; [|left; reflexivity].
  destruct (abs_ge_1000 f) eqn:E; [|left; reflexivity].
  right. exists f. split; [reflexivity|]. split; [exact E | reflexivity].
Qed.

Lemma assembled_cells_unchanged_or_scientific_witness :
  let form := {[ "result1" := " 1,500 " ]} : gmap string string in
  let t := test_entry form 1 in
  In t (assemble_test_data form)
  /\ (_sci_if_needed (Some (get t "result")) = get t "result"
      \/ exists f,
          py_float (remove_commas (get t "result")) = Some f
          /\ abs_ge_1000 f = true
          /\ _sci_if_needed (Some (get t "result")) = format_1E f).
Proof.
  intros form t.
  assert (Hin : In t (assemble_test_data form)).
  { apply assemble_In_intro; [cbn [range_1_9 In]; pick_disjunct|].
    apply any_value_fields. exists "result". split; [cbn [FORM_STEMS In]; pick_disjunct|].
    unfold form. rewrite (singleton_field "result1" " 1,500 " "result" 1 eq_refl).
    discriminate. }
  split; [exact Hin|]. exact (assembled_cells_unchanged_or_scientific form t "result" Hin).
Defined.

(** ** The name of the download *)

Section FilenameFacts.

Lemma endswith_append_r (a b suf : string) :
  endswith b suf = true -> endswith (a +:+ b) suf = true.
Proof.
  intros H. induction a as [|x a IH]; [exact H|].
  change (String x a +:+ b) with (String x (a +:+ b)).
  cbn [endswith]. rewrite IH. apply orb_true_r.
Qed.

Lemma or_else_stripped (s default : string) :
  strip default = default ->
  strip (or_else (strip s) default) = or_else (strip s) default.
Proof.
  intros Hd. unfold or_else. destruct (String.eqb (strip s) ""); [exact Hd | apply strip_idemp].
Qed.

End FilenameFacts.

(** X4.  The name of the download always ends in [.pdf] and is made of
    three parts joined by [_], none of them empty and none with surrounding
    white space; a part whose field is missing or blank is the placeholder
    [ITEMSKU], [LOTNUMBER] or [CUSTOMERPO]. *)
Theorem filename_has_three_parts (vals : gmap string string) :
  endswith (filename vals) ".pdf" = true
  /\ (exists sku lot po,
      filename vals = sku +:+ "_" +:+ lot +:+ "_" +:+ po +:+ ".pdf"
      /\ sku <> "" /\ lot <> "" /\ po <> ""
      /\ strip sku = sku /\ strip lot = lot /\ strip po = po
      /\ (strip (get vals "itemSKU") = "" -> sku = "ITEMSKU")
      /\ (strip (get vals "lotNumber") = "" -> lot = "LOTNUMBER")
      /\ (strip (get vals "poNumber") = "" -> po = "CUSTOMERPO")
      /\ (strip (get vals "itemSKU") <> "" -> sku = strip (get vals "itemSKU"))
      /\ (strip (get vals "lotNumber") <> "" -> lot = strip (get vals "lotNumber"))
      /\ (strip (get vals "poNumber") <> "" -> po = strip (get vals "poNumber"))).
Proof.
  split.
  - unfold filename. do 4 apply endswith_append_r. apply endswith_append.
  - exists (or_else (strip (get vals "itemSKU")) "ITEMSKU"),
           (or_else (strip (get vals "lotNumber")) "LOTNUMBER"),
           (or_else (strip (get vals "poNumber")) "CUSTOMERPO").
    split; [reflexivity|].
    split; [apply or_else_nonempty; discriminate|].
    split; [apply or_else_nonempty; discriminate|].
    split; [apply or_else_nonempty; discriminate|].
    split; [apply or_else_stripped; reflexivity|].
    split; [apply or_else_stripped; reflexivity|].
    split; [apply or_else_stripped; reflexivity|].
    unfold or_else.
    repeat split; intros H;
      try (rewrite H; reflexivity);
      match goal with
      | |- context [String.eqb ?x ""] => destruct (String.eqb_spec x ""); [contradiction | reflexivity]
      end.
Qed.

(** ** Import: errors, keys and repeated keys *)

Section ImportMore.

Implicit Types (data : gmap string string) (df : dataframe) (row : list cell).

Lemma parse_uploaded_file_cases (f : uploaded_file) :
  match table_of f with
  | Some (Ok df) => parse_uploaded_file (Some f) = (fold_left parse_row df ∅, [])
  | Some (Raise exc) =>
      parse_uploaded_file (Some f) = (∅, ["Failed to parse uploaded file: " +:+ exc])
  | None =>
      parse_uploaded_file (Some f)
      = (∅, ["Unsupported file type. Please upload CSV or Excel."])
  end.
Proof.
  unfold table_of, parse_uploaded_file.
  destruct (endswith (lower (name f)) ".csv").
  - destruct (read_csv f); reflexivity.
  - destruct (endswith (lower (name f)) ".xls" || endswith (lower (name f)) ".xlsx").
    + destruct (read_excel f); reflexivity.
    + reflexivity.
Qed.

Lemma row_entry_stripped row k v :
  row_entry row = Some (k, v) -> strip k = k /\ strip v = v.
Proof.
  unfold row_entry. destruct row as [|field rest]; [discriminate|].
  generalize (value_of (field :: rest)) as value. intros value.
  destruct (is_header field || isna field || isna value); [discriminate|].
  intros [= <- <-]. split; [apply strip_idemp|].
  unfold stored_text. destruct value; apply strip_idemp.
Qed.

Lemma parse_rows_size df data :
  size (fold_left parse_row df data) <= size data + length (List.filter kept df).
Proof.
  revert data. induction df as [|row df IH]; intros data; cbn [fold_left List.filter].
  - cbn [length]. lia.
  - etransitivity; [apply IH|]. rewrite parse_row_entry. unfold kept at 2.
    destruct (row_entry row) as [[k v]|]; cbv beta iota; cbn [length]; [|lia].
    pose proof (map_size_insert k v data) as Hs.
    destruct (data !! k); cbv beta iota in Hs; unfold id in Hs; lia.
Qed.

End ImportMore.

(** X5.  [parse_uploaded_file] reports at most one error, and when it
    reports one the dictionary is empty: nothing for no file, nothing but
    the message for a name that ends in neither [.csv], [.xls] nor [.xlsx]
    (in any case), nothing but the message with the text of the exception
    when the reader raises. *)
Theorem import_error_leaves_empty_map (file : option uploaded_file) :
  (snd (parse_uploaded_file file) = []
   \/ (fst (parse_uploaded_file file) = ∅
       /\ exists msg, snd (parse_uploaded_file file) = [msg]))
  /\ parse_uploaded_file None = (∅, [])
  /\ (forall f, table_of f = None ->
      parse_uploaded_file (Some f)
      = (∅, ["Unsupported file type. Please upload CSV or Excel."]))
  /\ (forall f exc, table_of f = Some (Raise exc) ->
      parse_uploaded_file (Some f)
      = (∅, ["Failed to parse uploaded file: " +:+ exc])).
Proof.
  split; [|split; [reflexivity|split]].
  - destruct file as [f|]; [|left; reflexivity].
    pose proof (parse_uploaded_file_cases f) as H.
    destruct (table_of f) as [[df|exc]|]; rewrite H; cbn [fst snd].
    + left; reflexivity.
    + right. split; [reflexivity|]. eexists; reflexivity.
    + right. split; [reflexivity|]. eexists; reflexivity.
  - intros f Ht. pose proof (parse_uploaded_file_cases f) as H. rewrite Ht in H. exact H.
  - intros f exc Ht. pose proof (parse_uploaded_file_cases f) as H. rewrite Ht in H. exact H.
Qed.

(** X6.  Every key and every value of the dictionary [parse_uploaded_file]
    returns is free of surrounding white space. *)
Theorem import_entries_are_stripped (file : option uploaded_file) (k v : string) :
  fst (parse_uploaded_file file) !! k = Some v -> strip k = k /\ strip v = v.
Proof.
  destruct file as [f|]; [|cbn [parse_uploaded_file fst]; rewrite lookup_empty; discriminate].
  pose proof (parse_uploaded_file_cases f) as H.
  destruct (table_of f) as [[df|exc]|]; rewrite H; cbn [fst];
    try (rewrite lookup_empty; discriminate).
  intros Hkv. apply parse_rows_sound in Hkv as [Hkv | (row & _ & Hrow)].
  - rewrite lookup_empty in Hkv. discriminate Hkv.
  - exact (row_entry_stripped row k v Hrow).
Qed.

Lemma import_entries_are_stripped_witness :
  let f := UploadedFile "coa.csv" (Ok [ [CStr "  lotNumber "; CStr " L-7 "] ])
                        (Raise "not a workbook") in
  fst (parse_uploaded_file (Some f)) !! "lotNumber" = Some "L-7"
  /\ strip "lotNumber" = "lotNumber" /\ strip "L-7" = "L-7".
Proof.
  intros f.
  assert (H : fst (parse_uploaded_file (Some f)) !! "lotNumber" = Some "L-7").
  { apply (parse_rows_last _ [] [CStr "  lotNumber "; CStr " L-7 "] []);
      [reflexivity | reflexivity | constructor]. }
  split; [exact H|]. exact (import_entries_are_stripped (Some f) "lotNumber" "L-7" H).
Defined.

(** X7.  When several rows of the file give the same key, the value of the
    last of them is the one in the dictionary. *)
Theorem import_last_row_wins (f : uploaded_file) (df pre post : dataframe)
        (row : list cell) (k v : string) :
  table_of f = Some (Ok df) ->
  df = pre ++ row :: post ->
  row_entry row = Some (k, v) ->
  Forall (fun later => forall v', row_entry later <> Some (k, v')) post ->
  fst (parse_uploaded_file (Some f)) !! k = Some v.
Proof.
  intros Ht Hdf Hrow Hpost. rewrite (parse_uploaded_file_table f df Ht). cbn [fst].
  exact (parse_rows_last df pre row post ∅ k v Hdf Hrow Hpost).
Qed.

Lemma import_last_row_wins_witness :
  let df := [ [CStr "lotNumber"; CStr "L-1"]; [CStr "itemSKU"; CStr "S"];
              [CStr "lotNumber"; CStr "L-2"]; [CStr "poNumber"; CStr "P"] ] in
  let f := UploadedFile "coa.xls" (Raise "not a csv file") (Ok df) in
  fst (parse_uploaded_file (Some f)) !! "lotNumber" = Some "L-2".
Proof.
  intros df f.
  apply (import_last_row_wins f df
           [ [CStr "lotNumber"; CStr "L-1"]; [CStr "itemSKU"; CStr "S"] ]
           [ [CStr "poNumber"; CStr "P"] ]
           [CStr "lotNumber"; CStr "L-2"] "lotNumber" "L-2").
  - reflexivity.
  - reflexivity.
  - reflexivity.
  - constructor; [|constructor]. intros v' H. discriminate H.
Defined.

(** X8.  The dictionary has at most one entry for each row that is kept,
    so no more entries than the file has rows. *)
Theorem import_size_bounded_by_rows (f : uploaded_file) (df : dataframe) :
  table_of f = Some (Ok df) ->
  size (fst (parse_uploaded_file (Some f))) <= length (List.filter kept df)
  /\ length (List.filter kept df) <= length df.
Proof.
  intros Ht. rewrite (parse_uploaded_file_table f df Ht). cbn [fst]. split.
  - pose proof (parse_rows_size df ∅) as H. rewrite map_size_empty in H. exact H.
  - apply List.filter_length_le.
Qed.

Lemma import_size_bounded_by_rows_witness :
  let df := [ [CStr "field"; CStr "value"]; [CStr "lotNumber"; CStr "L-1"];
              [CStr "lotNumber"; CStr "L-2"]; [CStr "poNumber"; CNA] ] in
  let f := UploadedFile "coa.csv" (Ok df) (Raise "not a workbook") in
  size (fst (parse_uploaded_file (Some f))) <= length (List.filter kept df)
  /\ length (List.filter kept df) <= length df.
Proof.
  intros df f. exact (import_size_bounded_by_rows f df eq_refl).
Defined.

(** ** Column widths: what the fitter keeps *)

Section FitMore.

Local Open Scope Q_scope.

Lemma Qle_bool_false (x y : Q) : Qle_bool x y = false -> y < x.
Proof.
  intros H. apply Qnot_le_lt. intros Hle. apply Qle_bool_iff in Hle. congruence.
Qed.

(** The two ways [_fit_col_widths] can go. *)
Lemma fit_cases (W : list Q) (M : Q) :
  _fit_col_widths W M = W
  \/ (0 < sum W /\ M < sum W /\ _fit_col_widths W M = map (fun w => w * (M / sum W)) W).
Proof.
  unfold _fit_col_widths.
  destruct (Qle_bool (sum W) 0) eqn:E0; [by left|].
  destruct (Qle_bool (sum W) M) eqn:EM; [by left|].
  right. split; [by apply Qle_bool_false|]. split; [by apply Qle_bool_false|]. reflexivity.
Qed.

Lemma sum_fit_scaled (W : list Q) (M : Q) :
  0 < sum W -> sum (map (fun w => w * (M / sum W)) W) == M.
Proof.
  intros H0. rewrite sum_scale. field. intros E. rewrite E in H0. by apply Qlt_irrefl in H0.
Qed.

Lemma scale_between (W : list Q) (M : Q) :
  0 <= M -> 0 < sum W -> M < sum W -> 0 <= M / sum W /\ M / sum W <= 1.
Proof.
  intros HM H0 HMt. split.
  - apply Qle_shift_div_l; [exact H0|]. rewrite Qmult_0_l. exact HM.
  - apply Qle_shift_div_r; [exact H0|]. rewrite Qmult_1_l. apply Qlt_le_weak. exact HMt.
Qed.

End FitMore.




(** X11.  Widths that are not negative are only ever shrunk: for a maximum
    that is not negative every fitted width lies between zero and the width
    it comes from. *)
Theorem fit_col_widths_only_shrinks (W : list Q) (M : Q) :
  (0 <= M)%Q ->
  Forall (fun w => 0 <= w)%Q W ->
  Forall2 (fun w' w => 0 <= w' /\ w' <= w)%Q (_fit_col_widths W M) W.
Proof.
  intros HM HW. destruct (fit_cases W M) as [E | (H0 & HMt & E)]; rewrite E.
  - clear E. induction HW as [|w W Hw _ IH]; constructor; [|exact IH].
    split; [exact Hw | apply Qle_refl].
  - destruct (scale_between W M HM H0 HMt) as [Hs0 Hs1].
    revert Hs0 Hs1. generalize (M / sum W)%Q as s. intros s Hs0 Hs1.
    clear E H0 HMt HM. induction HW as [|w W Hw _ IH]; cbn [map]; constructor; [|exact IH].
    split.
    + apply Qmult_le_0_compat; assumption.
    + apply (Qle_trans _ (1 * w)).
      * rewrite (Qmult_comm w s). apply Qmult_le_compat_r; assumption.
      * rewrite Qmult_1_l. apply Qle_refl.
Qed.

Lemma fit_col_widths_only_shrinks_witness :
  Forall2 (fun w' w => 0 <= w' /\ w' <= w)%Q (_fit_col_widths TP_COL_WIDTHS 300) TP_COL_WIDTHS.
Proof.
  apply (fit_col_widths_only_shrinks TP_COL_WIDTHS 300).
  - discriminate.
  - unfold TP_COL_WIDTHS. repeat constructor; discriminate.
Defined.

(** ** The story and the decoration *)

Section DecorationFacts.

Local Open Scope Q_scope.

Lemma fit_constants (header_ir footer_ir : option image) :
  let width := doc_width (doc_for header_ir footer_ir) in
  width == 594
  /\ _fit_col_widths CI_COL_WIDTHS width = CI_COL_WIDTHS
  /\ _fit_col_widths PI_COL_WIDTHS width = PI_COL_WIDTHS
  /\ _fit_col_widths TP_COL_WIDTHS width = TP_COL_WIDTHS.
Proof. repeat split; reflexivity. Qed.

Lemma tp_data_columns (tests : list (gmap string string)) :
  Forall (fun row => length row = 6%nat) (tp_data tests).
Proof.
  unfold tp_data. constructor; [reflexivity|].
  induction tests as [|t tests IH]; cbn [map]; constructor; [reflexivity | exact IH].
Qed.

Lemma drawn_image (img : image) :
  let w := inject_Z (Zpos (iw img)) in
  let h := inject_Z (Zpos (ih img)) in
  let scale := Qmin (content_width / w) 1 in
  (0 < w * scale /\ w * scale <= content_width /\ w * scale <= w)
  /\ (0 < h * scale /\ h * scale <= h)
  /\ (w * scale) * h == (h * scale) * w.
Proof.
  cbv zeta. destruct (scale_bounds img) as [Hpos Hle]. cbv zeta in Hpos, Hle.
  set (scale := Qmin _ 1) in *.
  assert (Hw : 0 < inject_Z (Zpos (iw img))) by reflexivity.
  assert (Hh : 0 < inject_Z (Zpos (ih img))) by reflexivity.
  assert (Hcw : scale <= content_width / inject_Z (Zpos (iw img))) by apply Q.le_min_l.
  split; [split; [|split]|split; [split|]].
  - apply Qmult_lt_0_compat; assumption.
  - apply (Qle_trans _ (inject_Z (Zpos (iw img)) * (content_width / inject_Z (Zpos (iw img))))).
    + apply Qmult_le_l; assumption.
    + apply Qle_lteq. right. field. intros E. rewrite E in Hw. by apply Qlt_irrefl in Hw.
  - apply (Qle_trans _ (inject_Z (Zpos (iw img)) * 1)).
    + apply Qmult_le_l; assumption.
    + rewrite Qmult_1_r. apply Qle_refl.
  - apply Qmult_lt_0_compat; assumption.
  - apply (Qle_trans _ (inject_Z (Zpos (ih img)) * 1)).
    + apply Qmult_le_l; assumption.
    + rewrite Qmult_1_r. apply Qle_refl.
  - ring.
Qed.

End DecorationFacts.


(** X13.  Every operation of the page decoration is in its place, whatever
    the sizes of the images: an image starts at the left margin, is scaled
    down (never up) to the content width with its proportions kept, the
    header has its upper edge on the top margin and the footer its lower
    edge on the bottom margin; the disclaimer is drawn once, at its fixed
    place, up to the right margin. *)
Theorem decoration_in_place (header_ir footer_ir : option image) (disclaimer_text : string) :
  Forall (decoration_placed header_ir footer_ir)
         (on_page header_ir footer_ir disclaimer_text)
  /\ length (List.filter (fun o => match o with DrawParagraph _ _ _ _ => true | _ => false end)
                         (on_page header_ir footer_ir disclaimer_text)) = 1.
Proof.
  assert (Hdisc : forall p, decoration_placed header_ir footer_ir
                              (DrawParagraph p DISC_X_ABS DISC_Y_ABS DISC_WIDTH)).
  { intros p. repeat split. }
  assert (Himg : forall img, header_ir = Some img ->
             decoration_placed header_ir footer_ir
               (DrawImage img MARGIN
                  (PAGE_H - MARGIN
                   - inject_Z (Zpos (ih img))
                     * Qmin (content_width / inject_Z (Zpos (iw img))) 1)
                  (inject_Z (Zpos (iw img)) * Qmin (content_width / inject_Z (Zpos (iw img))) 1)
                  (inject_Z (Zpos (ih img)) * Qmin (content_width / inject_Z (Zpos (iw img))) 1))%Q).
  { intros img E. destruct (drawn_image img) as (Hw & Hh & Ha). cbv zeta in Hw, Hh, Ha.
    split; [reflexivity|]. split; [exact Hw|]. split; [exact Hh|]. split; [exact Ha|].
    left. split; [exact E|]. ring. }
  assert (Hfoot : forall img, footer_ir = Some img ->
             decoration_placed header_ir footer_ir
               (DrawImage img MARGIN MARGIN
                  (inject_Z (Zpos (iw img)) * Qmin (content_width / inject_Z (Zpos (iw img))) 1)
                  (inject_Z (Zpos (ih img)) * Qmin (content_width / inject_Z (Zpos (iw img))) 1))%Q).
  { intros img E. destruct (drawn_image img) as (Hw & Hh & Ha). cbv zeta in Hw, Hh, Ha.
    split; [reflexivity|]. split; [exact Hw|]. split; [exact Hh|]. split; [exact Ha|].
    right. split; [exact E | reflexivity]. }
  unfold on_page.
  destruct header_ir as [h|], footer_ir as [f|]; cbv zeta; cbn [app];
    (split; [|reflexivity]);
    repeat match goal with
           | |- Forall _ (_ :: _) => apply List.Forall_cons
           | |- Forall _ [] => apply List.Forall_nil
           end;
    first [apply Hdisc | apply (Himg _ eq_refl) | apply (Hfoot _ eq_refl)].
Qed.

Section BandFacts.

Local Open Scope Q_scope.

Lemma top_margin_some (img : image) :
  top_margin (Some img) == MARGIN + scaled_h (Some img) content_width + 6.
Proof.
  unfold top_margin. rewrite truthy_pos by apply (scaled_h_some img). cbv iota. ring.
Qed.

Lemma frame_top_eq (header_ir footer_ir : option image) :
  let doc := doc_for header_ir footer_ir in
  bottomMargin doc + doc_height doc == PAGE_H - top_margin header_ir.
Proof. cbv zeta. unfold doc_height, doc_for. cbn [topMargin bottomMargin]. ring. Qed.

End BandFacts.

(** X14.  The images of the decoration keep clear of the frame of the
    flowing content, whatever their sizes: the header image ends 6 points
    above the top of the frame and the footer image 36 points below its
    bottom. *)
Theorem decoration_images_outside_frame
        (header_ir footer_ir : option image) (disclaimer_text : string) :
  Forall (image_outside_frame header_ir footer_ir)
         (on_page header_ir footer_ir disclaimer_text).
Proof.
  assert (Hhead : forall img, header_ir = Some img ->
             image_outside_frame header_ir footer_ir
               (DrawImage img MARGIN
                  (PAGE_H - MARGIN
                   - inject_Z (Zpos (ih img))
                     * Qmin (content_width / inject_Z (Zpos (iw img))) 1)
                  (inject_Z (Zpos (iw img)) * Qmin (content_width / inject_Z (Zpos (iw img))) 1)
                  (inject_Z (Zpos (ih img)) * Qmin (content_width / inject_Z (Zpos (iw img))) 1))%Q).
  { intros img E. unfold image_outside_frame. left. split; [exact E|].
    rewrite (frame_top_eq header_ir footer_ir), E, top_margin_some.
    unfold scaled_h. ring. }
  assert (Hfoot : forall img, footer_ir = Some img ->
             image_outside_frame header_ir footer_ir
               (DrawImage img MARGIN MARGIN
                  (inject_Z (Zpos (iw img)) * Qmin (content_width / inject_Z (Zpos (iw img))) 1)
                  (inject_Z (Zpos (ih img)) * Qmin (content_width / inject_Z (Zpos (iw img))) 1))%Q).
  { intros img E. unfold image_outside_frame. right. split; [exact E|].
    unfold doc_for. cbn [bottomMargin]. rewrite E. unfold bottom_margin, scaled_h. ring. }
  unfold on_page.
  destruct header_ir as [h|], footer_ir as [f|]; cbv zeta; cbn [app];
    repeat match goal with
           | |- Forall _ (_ :: _) => apply List.Forall_cons
           | |- Forall _ [] => apply List.Forall_nil
           end;
    first [exact I | apply (Hhead _ eq_refl) | apply (Hfoot _ eq_refl)].
Qed.

(** ** Dates: normalizing twice *)

(** X15.  When the parser reads the canonical form of a date it produced
    as that same date, normalizing a string twice gives what normalizing it
    once gives. *)
Theorem normalize_date_idempotent
        (to_datetime : string -> result datetime_value) (s : string) :
  (forall ts, to_datetime s = Ok (Stamp ts) ->
     exists ts', to_datetime (strftime_ymd ts) = Ok (Stamp ts')
                 /\ strftime_ymd ts' = strftime_ymd ts) ->
  (let! once := _normalize_date_str to_datetime s in _normalize_date_str to_datetime once)
  = _normalize_date_str to_datetime s.
Proof.
  intros Hround.
  destruct (String.eqb_spec s "") as [->|Hs]; [reflexivity|].
  assert (Hne : forall ts, String.eqb (strftime_ymd ts) "" = false).
  { intros ts. unfold strftime_ymd, four_digit. reflexivity. }
  assert (Hs' : String.eqb s "" = false) by (destruct (String.eqb_spec s ""); [contradiction | reflexivity]).
  destruct (to_datetime s) as [[|ts]|msg] eqn:Et.
  - assert (H1 : _normalize_date_str to_datetime s = Ok s)
      by (unfold _normalize_date_str; rewrite Hs', Et; reflexivity).
    rewrite !H1. cbn [bind]. exact H1.
  - assert (H1 : _normalize_date_str to_datetime s = Ok (strftime_ymd ts))
      by (unfold _normalize_date_str; rewrite Hs', Et; reflexivity).
    rewrite !H1. cbn [bind].
    destruct (Hround ts eq_refl) as (ts' & Et' & Eymd).
    unfold _normalize_date_str. rewrite Hne, Et'. cbn [bind catch]. by rewrite Eymd.
  - assert (H1 : _normalize_date_str to_datetime s = Ok s)
      by (unfold _normalize_date_str; rewrite Hs', Et; reflexivity).
    rewrite !H1. cbn [bind]. exact H1.
Qed.

Lemma normalize_date_idempotent_witness :
  (let! once := _normalize_date_str sample_to_datetime "03/14/2024" in
   _normalize_date_str sample_to_datetime once)
  = _normalize_date_str sample_to_datetime "03/14/2024".
Proof.
  apply (normalize_date_idempotent sample_to_datetime "03/14/2024").
  intros ts H. vm_compute in H. injection H as <-.
  exists (Timestamp 2024 3 14 0 0 0). split; vm_compute; reflexivity.
Defined.

(** ** What the document depends on *)

(** X16.  The story reads the field map through the sixteen known keys
    only: two maps that give the same text for each of them (a missing key
    counting as the empty text) give the same story, whatever else they
    hold. *)
Theorem story_reads_known_keys_only
        (to_datetime : string -> result datetime_value) (doc : doc_template)
        (info1 info2 : gmap string string) (tests : list (gmap string string)) :
  (forall k, In k FIELD_KEYS -> get info1 k = get info2 k) ->
  story to_datetime doc info1 tests = story to_datetime doc info2 tests.
Proof.
  intros H. unfold story. rewrite !ci_cells_eq, !pi_cells_eq.
  repeat match goal with
         | |- context [get info1 ?k] =>
             rewrite (H k) by (unfold FIELD_KEYS; cbn [In]; pick_disjunct)
         end.
  reflexivity.
Qed.

Lemma story_reads_known_keys_only_witness :
  story sample_to_datetime (doc_for None None) ∅ []
  = story sample_to_datetime (doc_for None None) {[ "comment" := "not a field" ]} [].
Proof.
  apply (story_reads_known_keys_only sample_to_datetime (doc_for None None)
           ∅ {[ "comment" := "not a field" ]} []).
  intros k Hk. unfold get. rewrite lookup_empty.
  rewrite lookup_singleton_ne; [reflexivity|].
  intros <-. unfold FIELD_KEYS in Hk. cbn [In] in Hk.
  repeat (destruct Hk as [Hk|Hk]; [discriminate Hk|]). exact Hk.
Defined.

(** X17.  The text [_safe_read_text] returns has no surrounding white
    space.  A file that can be read always gives its own content, stripped,
    also when that is empty: the default is used only when reading
    fails. *)
Theorem safe_read_text_is_stripped (path : text_file) (default : string) :
  exists t,
    _safe_read_text path default = Ok t
    /\ strip t = t
    /\ (forall content, path = TextFile content -> t = strip content)
    /\ (forall content, path = TextFile content -> strip content = "" -> t = "")
    /\ (text_absent path -> t = strip default).
Proof.
  exists (loaded_text path default).
  split; [apply safe_read_text_eq|].
  split; [destruct path; apply strip_idemp|].
  split; [intros content ->; reflexivity|].
  split; [intros content -> E; exact E|].
  destruct path; intros H; try reflexivity. destruct H.
Qed.

(** X18.  The footer height given to [NumberedCanvas] is stored and never
    read: two canvases that differ in it only produce the same document. *)
Theorem document_independent_of_footer_height
        (version_text : string) (footer_h1 footer_h2 : Q) (pages : list (list op)) :
  getvalue (build pages (NumberedCanvas version_text footer_h1))
  = getvalue (build pages (NumberedCanvas version_text footer_h2)).
Proof.
  destruct (build_spec version_text footer_h1 pages) as (_ & _ & ->).
  destruct (build_spec version_text footer_h2 pages) as (_ & _ & ->).
  reflexivity.
Qed.


(** ** Test rows in the table *)

(** X20.  Fed with the rows of [assemble_test_data], the table of tested
    properties has its header row and at most eight more: between one and
    nine rows of six cells. *)
Theorem tested_properties_table_rows (form_values : gmap string string) :
  let rows := tp_data (assemble_test_data form_values) in
  1 <= length rows <= 9
  /\ head rows = Some tp_header
  /\ Forall (fun row => length row = 6) rows.
Proof.
  cbv zeta. split; [|split; [reflexivity | apply tp_data_columns]].
  unfold tp_data. cbn [length]. rewrite length_map.
  assert (H : length (assemble_test_data form_values) <= 8).
  { rewrite assemble_eq. etransitivity; [apply List.filter_length_le|]. by rewrite length_map. }
  lia.
Qed.

(** ** Negative numbers *)

Section SignFacts.

Lemma digit_head (c : ascii) (t : string) :
  is_digit c = true ->
  py_isspace c = false
  /\ sign (String c t) = (false, String c t)
  /\ remove_commas (String c t) = String c (remove_commas t).
Proof.
  intros H. split; [by apply digit_not_space|].
  destruct c as [[] [] [] [] [] [] [] []]; try discriminate H; split; reflexivity.
Qed.

Lemma strip_digit_head (c : ascii) (t : string) :
  is_digit c = true -> exists t', strip (String c t) = String c t'
                       /\ strip (String "-" (String c t)) = String "-" (String c t').
Proof.
  intros H. destruct (digit_head c t H) as (Hsp & _ & _).
  destruct (rstrip_head c t Hsp) as [t' E]. exists t'.
  unfold strip. cbn [lstrip]. rewrite Hsp. split; [exact E|].
  change (py_isspace "-") with false. cbv iota.
  change (rstrip (String "-" (String c t)))
    with (match rstrip (String c t) with
          | EmptyString => if py_isspace "-" then EmptyString else String "-" EmptyString
          | u => String "-" u
          end).
  rewrite E. reflexivity.
Qed.

Lemma py_float_minus (c : ascii) (t : string) (f : pyfloat) :
  is_digit c = true ->
  py_float (String c t) = Some f ->
  f = with_sign false f /\ py_float (String "-" (String c t)) = Some (with_sign true f).
Proof.
  intros H. destruct (strip_digit_head c t H) as (t' & E1 & E2).
  unfold py_float. rewrite E1, E2.
  destruct (digit_head c t' H) as (_ & Hsign & _). rewrite Hsign.
  change (sign (String "-" (String c t'))) with (true, String c t').
  cbv beta iota.
  destruct (String.eqb (lower (String c t')) "inf" || String.eqb (lower (String c t')) "infinity").
  { intros [= <-]. split; reflexivity. }
  destruct (String.eqb (lower (String c t')) "nan").
  { intros [= <-]. split; reflexivity. }
  destruct (number (String c t')) as [[[ds fs] r]|]; [|discriminate].
  destruct (exponent r) as [ex|]; [|discriminate].
  intros [= <-]. unfold float_of_decimal.
  destruct (digits_value (ds ++ fs) =? 0)%Z; [split; reflexivity|].
  destruct (round_b64 _ _) as [[m e]|]; split; reflexivity.
Qed.

Lemma format_minus (f : pyfloat) :
  f = with_sign false f -> abs_ge_1000 f = true ->
  abs_ge_1000 (with_sign true f) = true
  /\ format_1E (with_sign true f) = "-" +:+ format_1E f.
Proof.
  destruct f as [|neg|neg m e]; cbn [with_sign]; intros Hf Hge; try discriminate Hge.
  - injection Hf as ->. split; reflexivity.
  - injection Hf as ->. split; [exact Hge|].
    unfold format_1E. destruct (m =? 0)%Z; [reflexivity|].
    cbv zeta. destruct (if (_ =? 100)%Z then _ else _) as [d k]. reflexivity.
Qed.

End SignFacts.

(** X21.  A minus sign in front of a number passes through: when a string
    without surrounding white space begins with a digit and is a number of
    at least 1000, the same string with [-] in front gives the same result
    with [-] in front. *)
Theorem sci_if_needed_minus (c : ascii) (t : string) (f : pyfloat) :
  is_digit c = true ->
  strip (String c t) = String c t ->
  py_float (remove_commas (String c t)) = Some f ->
  abs_ge_1000 f = true ->
  _sci_if_needed (Some (String "-" (String c t)))
  = "-" +:+ _sci_if_needed (Some (String c t)).
Proof.
  intros Hc Hs Hf Hge.
  destruct (strip_digit_head c t Hc) as (t' & E1 & E2).
  rewrite Hs in E1. injection E1 as <-.
  destruct (digit_head c t Hc) as (_ & _ & Hrc).
  unfold _sci_if_needed. rewrite E2, Hs.
  change (remove_commas (String "-" (String c t)))
    with (String "-" (remove_commas (String c t))).
  rewrite Hrc in Hf |- *.
  assert (Hne : forall a u, String.eqb (String a u) "" = false) by reflexivity.
  rewrite !Hne.
  destruct (py_float_minus c (remove_commas t) f Hc Hf) as (Hsf & ->).
  rewrite Hf, Hge.
  destruct (format_minus f Hsf Hge) as (-> & ->). reflexivity.
Qed.

Lemma sci_if_needed_minus_witness :
  _sci_if_needed (Some "-12,500.7") = "-" +:+ _sci_if_needed (Some "12,500.7")
  /\ _sci_if_needed (Some "-12,500.7") = "-1.3E+04".
Proof.
  split; [|vm_compute; reflexivity].
  apply (sci_if_needed_minus "1" "2,500.7" (PyFin false 6872332502669722 (-39))).
  - reflexivity.
  - reflexivity.
  - vm_compute. reflexivity.
  - vm_compute. reflexivity.
Defined.
